(** * Property and Action of gateway-addon-node: a shallow embedding

    The two classes of [src/property.ts] and of the Action base class are
    embedded as records with explicit state passing.  JavaScript values are
    an inductive type, JavaScript numbers are IEEE 754 binary64 numbers
    ([spec_float] at precision 53), promises that settle synchronously are
    an outcome type, and the owning device is the log of the calls made to
    it. *)

From Stdlib Require Import ZArith List String Ascii Bool Lia Permutation.
From Stdlib Require Import Floats.SpecFloat.
Import ListNotations.
Open Scope string_scope.
Open Scope Z_scope.

Set Implicit Arguments.

(** ** JavaScript numbers *)

Module Num.

(** A JavaScript Number is a binary64 value. *)
Definition t := spec_float.

Definition prec : Z := 53.
Definition emax : Z := 1024.

Definition NaN : t := S754_nan.
Definition zero : t := S754_zero false.

(** The Number whose value is the integer [n] (rounded when [n] needs more
    than 53 bits). *)
Definition of_Z (n : Z) : t := binary_normalize prec emax n 0 false.

Definition div : t -> t -> t := SFdiv prec emax.
Definition sub : t -> t -> t := SFsub prec emax.
Definition ltb : t -> t -> bool := SFltb.
Definition eqb : t -> t -> bool := SFeqb.

(** The Number nearest to the decimal [m * 10^e] (a numeric literal such
    as [0.3] is [decimal 3 (-1)]). *)
Definition decimal (m : Z) (e : Z) : t :=
  match m with
  | Z0 => zero
  | Zpos p =>
      if 0 <=? e then of_Z (m * 10 ^ e)
      else SFdiv prec emax (S754_finite false p 0)
                           (S754_finite false (Z.to_pos (10 ^ (- e))) 0)
  | Zneg p =>
      if 0 <=? e then of_Z (m * 10 ^ e)
      else SFdiv prec emax (S754_finite true p 0)
                           (S754_finite false (Z.to_pos (10 ^ (- e))) 0)
  end.

(** [Math.round]: the integer nearest to [x], ties towards +infinity;
    NaN, infinities and zeros are returned as they are, and a result that
    is zero keeps the sign of [x]. *)
Definition round (x : t) : t :=
  match x with
  | S754_finite s m e =>
      if 0 <=? e then x
      else
        let d := 2 ^ (- e) in
        let n := (2 * cond_Zopp s (Zpos m) + d) / (2 * d) in
        binary_normalize prec emax n 0 s
  | _ => x
  end.

End Num.

(** ** JavaScript values

    The value type [T] of [Property<T>] is erased at run time: a property
    holds any JavaScript value.  Objects and arrays are references, compared
    by identity; what converting one to a primitive gives, or throws, is the
    engine's to say.  Symbols and BigInts are left out. *)

Inductive JsValue : Type :=
| VUndefined
| VNull
| VBool (b : bool)
| VNumber (x : Num.t)
| VString (s : string)
| VObject (ref : nat).

(** The conversions of the language that the classes rely on but that are
    part of the JavaScript engine, not of this repository. *)
Class JsEngine : Type := {
  (** [Number::toString] in radix 10 *)
  NumberToString : Num.t -> string;
  (** [StringToNumber] *)
  StringToNumber : string -> Num.t;
  (** [ToPrimitive] of an object where it completes: for the plain objects
      and arrays of a JSON-compatible value this is the string given by
      [toString] *)
  ObjectToPrimitive : nat -> string;
  (** [ToPrimitive] of an object where it throws: the value thrown, a
      TypeError for an object with no usable [toString] and [valueOf], such
      as [Object.create(null)]; [None] for an object that converts *)
  ObjectThrows : nat -> option JsValue
}.

Section Conversions.

Context {E : JsEngine}.

(** [!!v] *)
Definition ToBoolean (v : JsValue) : bool :=
  match v with
  | VUndefined | VNull => false
  | VBool b => b
  | VNumber (S754_zero _) | VNumber S754_nan => false
  | VNumber _ => true
  | VString s => negb (String.eqb s "")
  | VObject _ => true
  end.

(** The implicit conversion of the operands of [<], [>] and [/]. *)
Definition ToNumber (v : JsValue) : Num.t :=
  match v with
  | VUndefined => Num.NaN
  | VNull => Num.zero
  | VBool true => Num.of_Z 1
  | VBool false => Num.zero
  | VNumber x => x
  | VString s => StringToNumber s
  | VObject r => StringToNumber (ObjectToPrimitive r)
  end.

(** The rendering of a template literal [`${v}`]. *)
Definition ToString (v : JsValue) : string :=
  match v with
  | VUndefined => "undefined"
  | VNull => "null"
  | VBool true => "true"
  | VBool false => "false"
  | VNumber x => NumberToString x
  | VString s => s
  | VObject r => ObjectToPrimitive r
  end.

(** [a === b] *)
Definition strict_eq (a b : JsValue) : bool :=
  match a, b with
  | VUndefined, VUndefined => true
  | VNull, VNull => true
  | VBool x, VBool y => Bool.eqb x y
  | VNumber x, VNumber y => Num.eqb x y
  | VString x, VString y => String.eqb x y
  | VObject x, VObject y => Nat.eqb x y
  | _, _ => false
  end.

(** [a !== b] *)
Definition strict_neq (a b : JsValue) : bool := negb (strict_eq a b).

(** [a == b]: operands of one type compare as [===]; [null] and
    [undefined] equal each other and nothing else; an object meets a
    string through [ToPrimitive]; every other mixed pair is compared as
    numbers. *)
Definition loose_eq (a b : JsValue) : bool :=
  match a, b with
  | VUndefined, VUndefined | VUndefined, VNull
  | VNull, VUndefined | VNull, VNull => true
  | VUndefined, _ | VNull, _ | _, VUndefined | _, VNull => false
  | VObject x, VObject y => Nat.eqb x y
  | VString x, VString y => String.eqb x y
  | VString x, VObject y => String.eqb x (ObjectToPrimitive y)
  | VObject x, VString y => String.eqb (ObjectToPrimitive x) y
  | _, _ => Num.eqb (ToNumber a) (ToNumber b)
  end.

(** [a != b] *)
Definition loose_neq (a b : JsValue) : bool := negb (loose_eq a b).

End Conversions.

(** An optional field of type [string], [number] or [boolean] read as a
    JavaScript value: an absent field reads [undefined]. *)
Definition opt_string (o : option string) : JsValue :=
  match o with Some s => VString s | None => VUndefined end.
Definition opt_number (o : option Num.t) : JsValue :=
  match o with Some x => VNumber x | None => VUndefined end.
Definition opt_bool (o : option bool) : JsValue :=
  match o with Some b => VBool b | None => VUndefined end.

(** [a ?? b] on optional fields. *)
Definition nullish {A : Type} (a b : option A) : option A :=
  match a with Some _ => a | None => b end.

(** ** Object literals

    The objects built by [asDict], [asPropertyDescription] and
    [asActionDescription]: the own keys in insertion order, each with the
    value stored under it.  A key whose value is [undefined] is still a key
    of the object. *)

Record Link : Type := { rel : string; href : string }.

Inductive Field : Type :=
| FVal (v : JsValue)
| FStrings (l : list string)
| FLinks (l : list Link).

Definition JsObject : Type := list (string * Field).

Fixpoint get (o : JsObject) (k : string) : option Field :=
  match o with
  | [] => None
  | (k', v) :: o' => if String.eqb k k' then Some v else get o' k
  end.

(** [k in o] *)
Definition has_key (o : JsObject) (k : string) : bool :=
  match get o k with Some _ => true | None => false end.

(** [o.k = v] on an object literal under construction. *)
Fixpoint set (o : JsObject) (k : string) (v : Field) : JsObject :=
  match o with
  | [] => [(k, v)]
  | (k', v') :: o' =>
      if String.eqb k k' then (k', v) :: o' else (k', v') :: set o' k v
  end.

Definition keys (o : JsObject) : list string := map fst o.

(** A promise whose executor has run: resolved with a value, rejected by
    [reject] with a string, or rejected with the value its executor threw. *)
Inductive Settled (A : Type) : Type :=
| Resolved (v : A)
| Rejected (reason : string)
| RejectedWith (thrown : JsValue).
Arguments Resolved {A} v.
Arguments Rejected {A} reason.
Arguments RejectedWith {A} thrown.

(** ** The description a property is constructed from *)

Module PropertyDescription.

(** [interface PropertyDescription]; an optional field that is absent is
    [None]. *)
Record t : Type := mk {
  title : option string;
  type : string;
  atType : option string;          (* '@type' *)
  unit : option string;
  description : option string;
  minimum : option Num.t;
  maximum : option Num.t;
  enum : option (list string);
  readOnly : option bool;
  multipleOf : option Num.t;
  links : option (list Link);
  visible : option bool
}.

End PropertyDescription.

Module LegacyPropertyDescription.

(** [interface LegacyPropertyDescription]: the fields an older add-on may
    have put on the same description object. *)
Record t : Type := mk {
  min : option Num.t;
  max : option Num.t;
  label : option string
}.

End LegacyPropertyDescription.

(** ** Property *)

Module Property.

(** The fields of [class Property<T>], but for [device], which is the
    reference to the owning device: the device is the [Device] component
    of the state the methods run in. *)
Record t : Type := mk {
  name : string;
  title : option string;
  type : string;
  atType : option string;          (* '@type' *)
  unit : option string;
  description : option string;
  minimum : option Num.t;
  maximum : option Num.t;
  enum : option (list string);
  readOnly : option bool;
  multipleOf : option Num.t;
  links : list Link;
  visible : bool;
  fireAndForget : bool;
  value : JsValue;
  prevGetValue : JsValue
}.

(** Modelled from the spec: the [Device] of [./device], which is not among
    the sources and which the spec keeps to its notification entry point.
    It is the device as the property sees it: the arguments of the calls of
    [notifyPropertyChanged], oldest first.  Each argument is the property as
    it was when the call was made. *)
Record Device : Type := { notifyPropertyChanged_calls : list t }.

Definition notifyPropertyChanged (d : Device) (p : t) : Device :=
  {| notifyPropertyChanged_calls := notifyPropertyChanged_calls d ++ [p] |}.

(** A property together with the device it belongs to. *)
Record State : Type := { this : t; device : Device }.

(** [new Property(device, name, propertyDescr)]; [legacyDescription] is
    [propertyDescr] read through the legacy interface. *)
Definition new (name : string) (propertyDescr : PropertyDescription.t)
    (legacyDescription : LegacyPropertyDescription.t) : t :=
  {| name := name;
     title := nullish (PropertyDescription.title propertyDescr)
                      (LegacyPropertyDescription.label legacyDescription);
     type := PropertyDescription.type propertyDescr;
     atType := PropertyDescription.atType propertyDescr;
     unit := PropertyDescription.unit propertyDescr;
     description := PropertyDescription.description propertyDescr;
     minimum := nullish (PropertyDescription.minimum propertyDescr)
                        (LegacyPropertyDescription.min legacyDescription);
     maximum := nullish (PropertyDescription.maximum propertyDescr)
                        (LegacyPropertyDescription.max legacyDescription);
     enum := PropertyDescription.enum propertyDescr;
     readOnly := PropertyDescription.readOnly propertyDescr;
     multipleOf := PropertyDescription.multipleOf propertyDescr;
     links := match PropertyDescription.links propertyDescr with
              | Some l => l
              | None => []
              end;
     visible := match PropertyDescription.visible propertyDescr with
                | Some b => b
                | None => true
                end;
     fireAndForget := false;
     value := VUndefined;
     prevGetValue := VUndefined |}.

(** [this.value = v] *)
Definition set_value (p : t) (v : JsValue) : t :=
  mk (name p) (title p) (type p) (atType p) (unit p) (description p)
     (minimum p) (maximum p) (enum p) (readOnly p) (multipleOf p)
     (links p) (visible p) (fireAndForget p) v (prevGetValue p).

(** [this.prevGetValue = v] *)
Definition set_prevGetValue (p : t) (v : JsValue) : t :=
  mk (name p) (title p) (type p) (atType p) (unit p) (description p)
     (minimum p) (maximum p) (enum p) (readOnly p) (multipleOf p)
     (links p) (visible p) (fireAndForget p) (value p) v.

Definition opt_strings (o : option (list string)) : Field :=
  match o with Some l => FStrings l | None => FVal VUndefined end.

Definition asDict (p : t) : JsObject :=
  [ ("name", FVal (VString (name p)));
    ("value", FVal (value p));
    ("visible", FVal (VBool (visible p)));
    ("title", FVal (opt_string (title p)));
    ("type", FVal (VString (type p)));
    ("@type", FVal (opt_string (atType p)));
    ("unit", FVal (opt_string (unit p)));
    ("description", FVal (opt_string (description p)));
    ("minimum", FVal (opt_number (minimum p)));
    ("maximum", FVal (opt_number (maximum p)));
    ("enum", opt_strings (enum p));
    ("readOnly", FVal (opt_bool (readOnly p)));
    ("multipleOf", FVal (opt_number (multipleOf p)));
    ("links", FLinks (links p)) ].

Definition asPropertyDescription (p : t) : JsObject :=
  [ ("title", FVal (opt_string (title p)));
    ("type", FVal (VString (type p)));
    ("@type", FVal (opt_string (atType p)));
    ("unit", FVal (opt_string (unit p)));
    ("description", FVal (opt_string (description p)));
    ("minimum", FVal (opt_number (minimum p)));
    ("maximum", FVal (opt_number (maximum p)));
    ("enum", opt_strings (enum p));
    ("readOnly", FVal (opt_bool (readOnly p)));
    ("multipleOf", FVal (opt_number (multipleOf p)));
    ("links", FLinks (links p)) ].

Definition isVisible (p : t) : bool := visible p.

Definition isFireAndForget (p : t) : bool := fireAndForget p.

Section Methods.

Context {E : JsEngine}.

(** Sets [this.value]; a property of type ['boolean'] stores [!!value].
    Returns the stored value and the updated property. *)
Definition setCachedValue (p : t) (v : JsValue) : JsValue * t :=
  let p' :=
    if String.eqb (type p) "boolean"
    then set_value p (VBool (ToBoolean v))
    else set_value p v in
  (value p', p').

(** Sets the value and notifies the device if the value has changed;
    returns [hasChanged]. *)
Definition setCachedValueAndNotify (st : State) (v : JsValue)
  : bool * State :=
  let oldValue := value (this st) in
  let p' := snd (setCachedValue (this st) v) in
  let hasChanged := strict_neq oldValue (value p') in
  if hasChanged
  then (hasChanged,
        {| this := p'; device := notifyPropertyChanged (device st) p' |})
  else (hasChanged, {| this := p'; device := device st |}).

(** The executor of the promise of [getValue] runs at once.  This is the
    executor where the comparison completes, as it does for every
    JSON-compatible value; there it only resolves.  [Promise.getValue] below
    adds the comparison that throws. *)
Definition getValue (p : t) : Settled JsValue * t :=
  let p' :=
    if loose_neq (value p) (prevGetValue p)
    then set_prevGetValue p (value p)
    else p in
  (Resolved (value p'), p').

(** The guards of [setValue], in the order of the source. *)

(** [this.readOnly] *)
Definition isReadOnly (p : t) : bool := ToBoolean (opt_bool (readOnly p)).

(** [this.minimum != undefined && numberValue < this.minimum]; the cast
    to [number] is erased, so [<] converts its left operand. *)
Definition lessThanMinimum (p : t) (v : JsValue) : bool :=
  match minimum p with
  | Some m => Num.ltb (ToNumber v) m
  | None => false
  end.

(** [this.maximum != undefined && numberValue > this.maximum] *)
Definition greaterThanMaximum (p : t) (v : JsValue) : bool :=
  match maximum p with
  | Some m => Num.ltb m (ToNumber v)
  | None => false
  end.

(** [this.multipleOf != undefined &&
     numberValue / this.multipleOf -
     Math.round(numberValue / this.multipleOf) !== 0] *)
Definition notMultiple (p : t) (v : JsValue) : bool :=
  match multipleOf p with
  | Some k =>
      let q := Num.div (ToNumber v) k in
      negb (Num.eqb (Num.sub q (Num.round q)) Num.zero)
  | None => false
  end.

(** [Array.prototype.includes] on an array of strings. *)
Definition includes (l : list string) (s : string) : bool :=
  existsb (String.eqb s) l.

(** [this.enum && this.enum.length > 0 &&
     !this.enum.includes(`${value}`)] *)
Definition invalidEnum (p : t) (v : JsValue) : bool :=
  match enum p with
  | Some l => (0 <? List.length l)%nat && negb (includes l (ToString v))
  | None => false
  end.

(** [`${x}`] for a field that holds a number (the guards before the
    message make sure it does). *)
Definition render (o : option Num.t) : string := ToString (opt_number o).

(** The executor of the promise of [setValue] where the conversions of the
    value complete, as they do for every JSON-compatible value;
    [Promise.setValue] below adds the conversions that throw. *)
Definition setValue (st : State) (v : JsValue)
  : Settled JsValue * State :=
  let p := this st in
  if isReadOnly p then
    (Rejected "Read-only property", st)
  else if lessThanMinimum p v then
    (Rejected ("Value less than minimum: " ++ render (minimum p)), st)
  else if greaterThanMaximum p v then
    (Rejected ("Value greater than maximum: " ++ render (maximum p)), st)
  else if notMultiple p v then
    (Rejected ("Value is not a multiple of: " ++ render (multipleOf p)),
     st)
  else if invalidEnum p v then
    (Rejected "Invalid enum value", st)
  else
    let st' := snd (setCachedValueAndNotify st v) in
    (Resolved (value (this st')), st').

End Methods.

(** The accessors: each setter stores its argument and does nothing
    else. *)
Definition getName (p : t) : string := name p.
Definition getTitle (p : t) : option string := title p.
Definition getType (p : t) : string := type p.
Definition getAtType (p : t) : option string := atType p.
Definition getUnit (p : t) : option string := unit p.
Definition getDescription (p : t) : option string := description p.
Definition getMinimum (p : t) : option Num.t := minimum p.
Definition getMaximum (p : t) : option Num.t := maximum p.
Definition getEnum (p : t) : option (list string) := enum p.
Definition getReadOnly (p : t) : option bool := readOnly p.
Definition getMultipleOf (p : t) : option Num.t := multipleOf p.
Definition getLinks (p : t) : list Link := links p.

Definition setMinimum (p : t) (x : Num.t) : t :=
  mk (name p) (title p) (type p) (atType p) (unit p) (description p)
     (Some x) (maximum p) (enum p) (readOnly p) (multipleOf p)
     (links p) (visible p) (fireAndForget p) (value p) (prevGetValue p).
Definition setMaximum (p : t) (x : Num.t) : t :=
  mk (name p) (title p) (type p) (atType p) (unit p) (description p)
     (minimum p) (Some x) (enum p) (readOnly p) (multipleOf p)
     (links p) (visible p) (fireAndForget p) (value p) (prevGetValue p).
Definition setEnum (p : t) (l : list string) : t :=
  mk (name p) (title p) (type p) (atType p) (unit p) (description p)
     (minimum p) (maximum p) (Some l) (readOnly p) (multipleOf p)
     (links p) (visible p) (fireAndForget p) (value p) (prevGetValue p).
Definition setReadOnly (p : t) (b : bool) : t :=
  mk (name p) (title p) (type p) (atType p) (unit p) (description p)
     (minimum p) (maximum p) (enum p) (Some b) (multipleOf p)
     (links p) (visible p) (fireAndForget p) (value p) (prevGetValue p).
Definition setMultipleOf (p : t) (x : Num.t) : t :=
  mk (name p) (title p) (type p) (atType p) (unit p) (description p)
     (minimum p) (maximum p) (enum p) (readOnly p) (Some x)
     (links p) (visible p) (fireAndForget p) (value p) (prevGetValue p).
Definition setType (p : t) (s : string) : t :=
  mk (name p) (title p) s (atType p) (unit p) (description p)
     (minimum p) (maximum p) (enum p) (readOnly p) (multipleOf p)
     (links p) (visible p) (fireAndForget p) (value p) (prevGetValue p).
Definition setName (p : t) (s : string) : t :=
  mk s (title p) (type p) (atType p) (unit p) (description p)
     (minimum p) (maximum p) (enum p) (readOnly p) (multipleOf p)
     (links p) (visible p) (fireAndForget p) (value p) (prevGetValue p).
Definition setTitle (p : t) (s : string) : t :=
  mk (name p) (Some s) (type p) (atType p) (unit p) (description p)
     (minimum p) (maximum p) (enum p) (readOnly p) (multipleOf p)
     (links p) (visible p) (fireAndForget p) (value p) (prevGetValue p).
Definition setAtType (p : t) (s : string) : t :=
  mk (name p) (title p) (type p) (Some s) (unit p) (description p)
     (minimum p) (maximum p) (enum p) (readOnly p) (multipleOf p)
     (links p) (visible p) (fireAndForget p) (value p) (prevGetValue p).
Definition setUnit (p : t) (s : string) : t :=
  mk (name p) (title p) (type p) (atType p) (Some s) (description p)
     (minimum p) (maximum p) (enum p) (readOnly p) (multipleOf p)
     (links p) (visible p) (fireAndForget p) (value p) (prevGetValue p).
Definition setDescription (p : t) (s : string) : t :=
  mk (name p) (title p) (type p) (atType p) (unit p) (Some s)
     (minimum p) (maximum p) (enum p) (readOnly p) (multipleOf p)
     (links p) (visible p) (fireAndForget p) (value p) (prevGetValue p).
Definition setLinks (p : t) (l : list Link) : t :=
  mk (name p) (title p) (type p) (atType p) (unit p) (description p)
     (minimum p) (maximum p) (enum p) (readOnly p) (multipleOf p)
     l (visible p) (fireAndForget p) (value p) (prevGetValue p).

(** [getDevice()] *)
Definition getDevice (st : State) : Device := device st.

End Property.

(** ** The promises on any value

    [<], [>], [/] and the template literal convert an object operand with
    [ToPrimitive], and so does [!=] when it compares an object with a
    number, a string or a boolean.  Where that conversion throws, the
    executor stops there and the promise is rejected with the value thrown.
    The methods below are the executors of [getValue] and [setValue] with
    these conversions written out, in the order the source reaches them. *)

Module Promise.

Section Methods.

Context {E : JsEngine}.

(** What the conversion of [v] to a primitive throws, if it throws. *)
Definition conversion_error (v : JsValue) : option JsValue :=
  match v with
  | VObject r => ObjectThrows r
  | _ => None
  end.

(** What [a != b] throws, if it throws: two objects are compared by
    identity and [null] and [undefined] equal nothing else, so only an
    object against a boolean, a number or a string is converted. *)
Definition loose_error (a b : JsValue) : option JsValue :=
  match a, b with
  | VObject _, (VBool _ | VNumber _ | VString _) => conversion_error a
  | (VBool _ | VNumber _ | VString _), VObject _ => conversion_error b
  | _, _ => None
  end.

(** What a guard of the form [this.bound != undefined && value ...] throws:
    the value is converted only when the bound is defined. *)
Definition bound_error {A : Type} (bound : option A) (v : JsValue)
  : option JsValue :=
  match bound with
  | Some _ => conversion_error v
  | None => None
  end.

(** What the enum guard throws: the template literal is evaluated only
    when the enum is defined and not empty. *)
Definition enum_error (enum : option (list string)) (v : JsValue)
  : option JsValue :=
  match enum with
  | Some (_ :: _) => conversion_error v
  | _ => None
  end.

Definition getValue (p : Property.t) : Settled JsValue * Property.t :=
  match loose_error (Property.value p) (Property.prevGetValue p) with
  | Some e => (RejectedWith e, p)
  | None =>
      let p' :=
        if loose_neq (Property.value p) (Property.prevGetValue p)
        then Property.set_prevGetValue p (Property.value p)
        else p in
      (Resolved (Property.value p'), p')
  end.

Definition setValue (st : Property.State) (v : JsValue)
  : Settled JsValue * Property.State :=
  let p := Property.this st in
  if Property.isReadOnly p then
    (Rejected "Read-only property", st)
  else match bound_error (Property.minimum p) v with
  | Some e => (RejectedWith e, st)
  | None =>
  if Property.lessThanMinimum p v then
    (Rejected ("Value less than minimum: "
               ++ Property.render (Property.minimum p)), st)
  else match bound_error (Property.maximum p) v with
  | Some e => (RejectedWith e, st)
  | None =>
  if Property.greaterThanMaximum p v then
    (Rejected ("Value greater than maximum: "
               ++ Property.render (Property.maximum p)), st)
  else match bound_error (Property.multipleOf p) v with
  | Some e => (RejectedWith e, st)
  | None =>
  if Property.notMultiple p v then
    (Rejected ("Value is not a multiple of: "
               ++ Property.render (Property.multipleOf p)), st)
  else match enum_error (Property.enum p) v with
  | Some e => (RejectedWith e, st)
  | None =>
  if Property.invalidEnum p v then
    (Rejected "Invalid enum value", st)
  else
    let st' := snd (Property.setCachedValueAndNotify st v) in
    (Resolved (Property.value (Property.this st')), st')
  end end end end.

End Methods.

End Promise.

(** ** Action *)

Module Action.

(** The fields of [class Action], but for [device] (see [Env]). *)
Record t : Type := mk {
  status : string;
  timeRequested : string;
  timeCompleted : option string;
  id : string;
  name : string;
  input : JsValue
}.

(** Modelled from the spec: the [Device] of [./device] and the wall clock
    behind [timestamp], neither of which is among the sources.  The device
    is the arguments of the calls of [actionNotify], oldest first, each the
    action as it was when the call was made. *)
Record Env : Type := {
  clock : Z;
  actionNotify_calls : list t
}.

Definition actionNotify (env : Env) (a : t) : Env :=
  {| clock := clock env;
     actionNotify_calls := actionNotify_calls env ++ [a] |}.

(** Time passes: the wall clock is monotonic, it moves forward by a
    duration that is not negative. *)
Definition elapse (d : N) (env : Env) : Env :=
  {| clock := clock env + Z.of_N d;
     actionNotify_calls := actionNotify_calls env |}.

Section Methods.

(** The rendering of an instant of the wall clock as a string. *)
Variable format : Z -> string.

(** Modelled from the spec: [timestamp] of [./utils], which is not among
    the sources; the spec takes it as an externally provided monotonic
    wall-clock string generator.  It renders the current instant. *)
Definition timestamp (env : Env) : string := format (clock env).

(** [new Action(id, device, name, input)], with the field initialisers
    [status = 'created'] and [timeRequested = timestamp()]. *)
Definition new (env : Env) (id name : string) (input : JsValue) : t :=
  {| status := "created";
     timeRequested := timestamp env;
     timeCompleted := None;
     id := id;
     name := name;
     input := input |}.

Definition asActionDescription (a : t) : JsObject :=
  let description :=
    [ ("name", FVal (VString (name a)));
      ("timeRequested", FVal (VString (timeRequested a)));
      ("status", FVal (VString (status a))) ] in
  let description :=
    if strict_neq (input a) VNull
    then set description "input" (FVal (input a))
    else description in
  let description :=
    if strict_neq (opt_string (timeCompleted a)) VNull
    then set description "timeCompleted"
             (FVal (opt_string (timeCompleted a)))
    else description in
  description.

Definition asDict (a : t) : JsObject :=
  [ ("id", FVal (VString (id a)));
    ("name", FVal (VString (name a)));
    ("input", FVal (input a));
    ("status", FVal (VString (status a)));
    ("timeRequested", FVal (VString (timeRequested a)));
    ("timeCompleted", FVal (opt_string (timeCompleted a))) ].

(** Start performing the action. *)
Definition start (a : t) (env : Env) : t * Env :=
  let a' := mk "pending" (timeRequested a) (timeCompleted a)
               (id a) (name a) (input a) in
  (a', actionNotify env a').

(** Finish performing the action. *)
Definition finish (a : t) (env : Env) : t * Env :=
  let a' := mk "completed" (timeRequested a) (Some (timestamp env))
               (id a) (name a) (input a) in
  (a', actionNotify env a').

End Methods.

End Action.

(** ** A reference engine

    An executable instance of [JsEngine] that follows ECMAScript:
    [Number::toString] produces the shortest decimal that reads back as the
    same Number, [StringToNumber] reads a [StringNumericLiteral], and every
    object is a plain object.  The theorems below hold for every engine;
    this instance is what the examples run on. *)

Module Engine.

Definition digit (d : Z) : ascii := ascii_of_N (48 + Z.to_N d).

Fixpoint digits_aux (fuel : nat) (n : Z) (acc : string) : string :=
  match fuel with
  | O => acc
  | S fuel' =>
      let acc' := String (digit (n mod 10)) acc in
      if n <? 10 then acc' else digits_aux fuel' (n / 10) acc'
  end.

(** The decimal digits of [n >= 0]. *)
Definition digits (n : Z) : string :=
  digits_aux (S (Z.to_nat (Z.log2 n))) n "".

Fixpoint zeros (n : nat) : string :=
  match n with O => "" | S n' => String "0" (zeros n') end.

Definition same (a b : Num.t) : bool :=
  match a, b with
  | S754_finite s m e, S754_finite s' m' e' =>
      Bool.eqb s s' && Pos.eqb m m' && Z.eqb e e'
  | S754_zero s, S754_zero s' => Bool.eqb s s'
  | S754_infinity s, S754_infinity s' => Bool.eqb s s'
  | S754_nan, S754_nan => true
  | _, _ => false
  end.

(** [m * 2^e >= 10^j] *)
Definition ge_pow10 (m e j : Z) : bool :=
  10 ^ Z.max j 0 * 2 ^ Z.max (- e) 0
    <=? m * 2 ^ Z.max e 0 * 10 ^ Z.max (- j) 0.

Fixpoint find_n (fuel : nat) (m e n : Z) : Z :=
  match fuel with
  | O => n
  | S fuel' => if ge_pow10 m e n then find_n fuel' m e (n + 1) else n
  end.

(** The [n] with [10^(n-1) <= m * 2^e < 10^n]. *)
Definition magnitude (m e : Z) : Z :=
  find_n 4 m e ((Z.log2 m + e) * 1233 / 4096 - 1).

(** The [k]-digit decimals next to [m * 2^e] that read back as it, the
    closest first: [Some (s, n)] stands for [s * 10^(n-k)]. *)
Definition candidate (m : positive) (e n k : Z) : option (Z * Z) :=
  let num := Zpos m * 2 ^ Z.max e 0 * 10 ^ Z.max (k - n) 0 in
  let den := 2 ^ Z.max (- e) 0 * 10 ^ Z.max (n - k) 0 in
  let lo := num / den in
  let r := num mod den in
  let hi := if lo + 1 =? 10 ^ k then (10 ^ (k - 1), n + 1) else (lo + 1, n) in
  let back sn :=
    same (Num.decimal (fst sn) (snd sn - k)) (S754_finite false m e) in
  let lo_ok := back (lo, n) in
  let hi_ok := back hi in
  if lo_ok && hi_ok then
    match 2 * r ?= den with
    | Lt => Some (lo, n)
    | Gt => Some hi
    | Eq => if Z.even lo then Some (lo, n) else Some hi
    end
  else if lo_ok then Some (lo, n)
  else if hi_ok then Some hi
  else None.

Fixpoint shortest (fuel : nat) (m : positive) (e n k : Z) : Z * Z * Z :=
  match fuel with
  | O => (Zpos m * 2 ^ Z.max e 0 * 10 ^ Z.max (k - n) 0
            / (2 ^ Z.max (- e) 0 * 10 ^ Z.max (n - k) 0), n, k)
  | S fuel' =>
      match candidate m e n k with
      | Some (s, n') => (s, n', k)
      | None => shortest fuel' m e n (k + 1)
      end
  end.

Definition take (n : Z) (s : string) : string :=
  substring 0 (Z.to_nat n) s.
Definition drop (n : Z) (s : string) : string :=
  substring (Z.to_nat n) (String.length s - Z.to_nat n) s.

Definition positiveToString (m : positive) (e : Z) : string :=
  let '(s, n, k) := shortest 17 m e (magnitude (Zpos m) e) 1 in
  let ds := digits s in
  if (k <=? n) && (n <=? 21) then
    ds ++ zeros (Z.to_nat (n - k))
  else if (0 <? n) && (n <=? 21) then
    take n ds ++ "." ++ drop n ds
  else if (-6 <? n) && (n <=? 0) then
    "0." ++ zeros (Z.to_nat (- n)) ++ ds
  else
    let ex := (if n - 1 <? 0 then "-" else "+") ++ digits (Z.abs (n - 1)) in
    if k =? 1 then ds ++ "e" ++ ex
    else take 1 ds ++ "." ++ drop 1 ds ++ "e" ++ ex.

Definition NumberToString (x : Num.t) : string :=
  match x with
  | S754_nan => "NaN"
  | S754_zero _ => "0"
  | S754_infinity false => "Infinity"
  | S754_infinity true => "-Infinity"
  | S754_finite false m e => positiveToString m e
  | S754_finite true m e => "-" ++ positiveToString m e
  end.

(** *** StringToNumber *)

(** A character of a string stands for the code unit of the same number;
    the white space and line terminators among the code units below 256
    are 9 to 13, 32 and 160. *)
Definition is_ws (c : ascii) : bool :=
  let n := N_of_ascii c in
  ((9 <=? n) && (n <=? 13) || (n =? 32) || (n =? 160))%N.

Fixpoint trim_left (s : string) : string :=
  match s with
  | String c r => if is_ws c then trim_left r else s
  | EmptyString => s
  end.

Fixpoint trim_right (s : string) : string :=
  match s with
  | String c r =>
      let r' := trim_right r in
      if is_ws c && String.eqb r' "" then "" else String c r'
  | EmptyString => s
  end.

(** The value of [c] as a digit in base [b], if it is one. *)
Definition digit_val (b : Z) (c : ascii) : option Z :=
  let n := Z.of_N (N_of_ascii c) in
  let v :=
    if (48 <=? n) && (n <=? 57) then n - 48
    else if (97 <=? n) && (n <=? 102) then n - 87
    else if (65 <=? n) && (n <=? 70) then n - 55
    else b in
  if v <? b then Some v else None.

(** Reads the digits at the head of [s]: the value read on top of [acc],
    how many digits were read, and what follows them. *)
Fixpoint read_digits (b : Z) (s : string) (acc cnt : Z) : Z * Z * string :=
  match s with
  | String c r =>
      match digit_val b c with
      | Some d => read_digits b r (acc * b + d) (cnt + 1)
      | None => (acc, cnt, s)
      end
  | EmptyString => (acc, cnt, s)
  end.

(** [ExponentPart], or nothing, up to the end of the string. *)
Definition read_exponent (s : string) : option Z :=
  match s with
  | EmptyString => Some 0
  | String c r =>
      if Ascii.eqb c "e" || Ascii.eqb c "E" then
        let '(neg, r') :=
          match r with
          | String "-" r' => (true, r')
          | String "+" r' => (false, r')
          | _ => (false, r)
          end in
        match read_digits 10 r' 0 0 with
        | (x, cnt, EmptyString) =>
            if 0 <? cnt then Some (if neg then - x else x) else None
        | _ => None
        end
      else None
  end.

(** [StrUnsignedDecimalLiteral] *)
Definition read_unsigned (s : string) : Num.t :=
  if String.eqb s "Infinity" then S754_infinity false
  else
    let '(i, icnt, r) := read_digits 10 s 0 0 in
    let '(m, fcnt, r') :=
      match r with
      | String "." f => read_digits 10 f i 0
      | _ => (i, 0, r)
      end in
    if 0 <? icnt + fcnt then
      match read_exponent r' with
      | Some ex => Num.decimal m (ex - fcnt)
      | None => Num.NaN
      end
    else Num.NaN.

(** [NonDecimalIntegerLiteral]: [0x], [0o] and [0b] literals. *)
Definition read_radix (b : Z) (s : string) : Num.t :=
  match read_digits b s 0 0 with
  | (x, cnt, EmptyString) => if 0 <? cnt then Num.of_Z x else Num.NaN
  | _ => Num.NaN
  end.

Definition StringToNumber (s : string) : Num.t :=
  match trim_right (trim_left s) with
  | EmptyString => Num.zero
  | String "-" r => SFopp (read_unsigned r)
  | String "+" r => read_unsigned r
  | String "0" (String c r) as lit =>
      if Ascii.eqb c "x" || Ascii.eqb c "X" then read_radix 16 r
      else if Ascii.eqb c "o" || Ascii.eqb c "O" then read_radix 8 r
      else if Ascii.eqb c "b" || Ascii.eqb c "B" then read_radix 2 r
      else read_unsigned lit
  | lit => read_unsigned lit
  end.

(** The heap of the reference engine: object 1 is [Object.create(null)],
    whose conversion throws the TypeError that is object 5; object 2 is
    [[]], object 3 is [[5]] and object 4 is [[1, 2]], which convert to the
    join of their items; every other object is a plain object [{}]. *)
Definition ObjectToPrimitive (r : nat) : string :=
  match r with
  | 2%nat => ""
  | 3%nat => "5"
  | 4%nat => "1,2"
  | 5%nat => "TypeError: Cannot convert object to primitive value"
  | _ => "[object Object]"
  end.

Definition ObjectThrows (r : nat) : option JsValue :=
  match r with
  | 1%nat => Some (VObject 5)
  | _ => None
  end.

End Engine.

#[export] Instance reference_engine : JsEngine := {|
  NumberToString := Engine.NumberToString;
  StringToNumber := Engine.StringToNumber;
  ObjectToPrimitive := Engine.ObjectToPrimitive;
  ObjectThrows := Engine.ObjectThrows
|}.

(** ** The validation pipeline as the specification words it

    The write path is specified as an ordered pipeline of checks that stops
    at the first failure.  [Pipeline.run] is that reading; it is compared
    with [Property.setValue] below. *)

Module Pipeline.

Inductive Constraint : Type :=
| ReadOnly | Minimum | Maximum | MultipleOf | Enum.

(** The order in which the checks run. *)
Definition order : list Constraint :=
  [ReadOnly; Minimum; Maximum; MultipleOf; Enum].

Section Checks.

Context {E : JsEngine}.

(** The quotient is an integer: it differs from the integer nearest to it
    by nothing.  The specification would allow a rounding tolerance here;
    the pipeline takes none. *)
Definition whole (q : Num.t) : bool :=
  Num.eqb (Num.sub q (Num.round q)) Num.zero.

(** Whether the value violates the constraint, each one as the
    specification words it: the property is read-only; a minimum is defined
    and the numeric value is less than it; a maximum is defined and the
    numeric value exceeds it; a multipleOf is defined and the numeric value
    divided by it is no integer; an enum that is not empty is defined and
    the string rendering of the value is not among its members. *)
Definition violates (p : Property.t) (v : JsValue) (c : Constraint)
  : bool :=
  match c with
  | ReadOnly =>
      match Property.readOnly p with
      | Some true => true
      | _ => false
      end
  | Minimum =>
      match Property.minimum p with
      | Some m => Num.ltb (ToNumber v) m
      | None => false
      end
  | Maximum =>
      match Property.maximum p with
      | Some m => Num.ltb m (ToNumber v)
      | None => false
      end
  | MultipleOf =>
      match Property.multipleOf p with
      | Some k => negb (whole (Num.div (ToNumber v) k))
      | None => false
      end
  | Enum =>
      match Property.enum p with
      | Some (x :: l) =>
          if in_dec string_dec (ToString v) (x :: l) then false else true
      | _ => false
      end
  end.

(** The bound a reason ends with. *)
Definition bound (o : option Num.t) : string :=
  match o with
  | Some m => NumberToString m
  | None => "undefined"
  end.

(** The reason given for a violated constraint. *)
Definition reason (p : Property.t) (c : Constraint) : string :=
  match c with
  | ReadOnly => "Read-only property"
  | Minimum => "Value less than minimum: " ++ bound (Property.minimum p)
  | Maximum => "Value greater than maximum: " ++ bound (Property.maximum p)
  | MultipleOf =>
      "Value is not a multiple of: " ++ bound (Property.multipleOf p)
  | Enum => "Invalid enum value"
  end.

(** The first constraint of [cs] that the value violates. *)
Fixpoint first_failure (p : Property.t) (v : JsValue)
    (cs : list Constraint) : option Constraint :=
  match cs with
  | [] => None
  | c :: cs' => if violates p v c then Some c else first_failure p v cs'
  end.

(** What a successful write does: the cache takes the value, coerced to a
    strict boolean on a boolean property; the device is notified with the
    updated property when the new cached value differs from the old one;
    the promise resolves with the cached value. *)
Definition accept (st : Property.State) (v : JsValue)
  : Settled JsValue * Property.State :=
  let p := Property.this st in
  let cached :=
    if String.eqb (Property.type p) "boolean"
    then VBool (ToBoolean v) else v in
  let p' := Property.set_value p cached in
  (Resolved cached,
   {| Property.this := p';
      Property.device :=
        if strict_eq (Property.value p) cached
        then Property.device st
        else {| Property.notifyPropertyChanged_calls :=
                  Property.notifyPropertyChanged_calls (Property.device st)
                    ++ [p'] |} |}).

(** The pipeline: reject with the reason of the first failing check and
    leave the state alone, or accept the write. *)
Definition run (st : Property.State) (v : JsValue)
  : Settled JsValue * Property.State :=
  match first_failure (Property.this st) v order with
  | Some c => (Rejected (reason (Property.this st) c), st)
  | None => accept st v
  end.

End Checks.


(** The place of a constraint in [order]. *)
Definition rank (c : Constraint) : nat :=
  match c with
  | ReadOnly => 0
  | Minimum => 1
  | Maximum => 2
  | MultipleOf => 3
  | Enum => 4
  end.

End Pipeline.


(** ** Readings of the outward contracts

    What the specification asks of the views and of the rejection reasons,
    worded as predicates to be tried on the code. *)

Module Contract.

(** The optional description fields, each with what the property holds
    for it. *)
Definition optional_fields (p : Property.t) : list (string * Field) :=
  [ ("title", FVal (opt_string (Property.title p)));
    ("@type", FVal (opt_string (Property.atType p)));
    ("unit", FVal (opt_string (Property.unit p)));
    ("description", FVal (opt_string (Property.description p)));
    ("minimum", FVal (opt_number (Property.minimum p)));
    ("maximum", FVal (opt_number (Property.maximum p)));
    ("enum", Property.opt_strings (Property.enum p));
    ("readOnly", FVal (opt_bool (Property.readOnly p)));
    ("multipleOf", FVal (opt_number (Property.multipleOf p))) ].

(** A sparse view: no key for an optional field that is undefined on the
    property. *)
Definition omits_undefined (p : Property.t) (o : JsObject) : Prop :=
  forall k, In (k, FVal VUndefined) (optional_fields p) ->
            has_key o k = false.

(** No key holds [null]. *)
Definition no_null (o : JsObject) : Prop :=
  forall k, get o k <> Some (FVal VNull).

(** No key holds [null] or [undefined]. *)
Definition no_placeholder (o : JsObject) : Prop :=
  forall k, get o k <> Some (FVal VNull)
            /\ get o k <> Some (FVal VUndefined).


End Contract.

(** ** Example properties and actions *)

Module Examples.

Definition no_legacy : LegacyPropertyDescription.t :=
  LegacyPropertyDescription.mk None None None.

(** [{type}] *)
Definition descr (type : string) : PropertyDescription.t :=
  PropertyDescription.mk None type None None None None None None None None
    None None.

Definition idle : Property.Device :=
  {| Property.notifyPropertyChanged_calls := [] |}.

(** [new Property(device, 'on', {type: 'boolean'})] *)
Definition on : Property.t := Property.new "on" (descr "boolean") no_legacy.

(** [new Property(device, 'level', {type: 'number'})] *)
Definition level : Property.t :=
  Property.new "level" (descr "number") no_legacy.

(** [new Property(device, 'level', {type: 'number', multipleOf: 0.1})] *)
Definition tenths : Property.t :=
  Property.setMultipleOf level (Num.decimal 1 (-1)).

(** [new Property(device, 'level', {type: 'number', readOnly: true})] *)
Definition sensor : Property.t := Property.setReadOnly level true.

(** [new Property(device, 'mode', {type: 'string', enum: ['off', 'heat',
    'cool']})] *)
Definition mode : Property.t :=
  Property.setEnum (Property.new "mode" (descr "string") no_legacy)
    ["off"; "heat"; "cool"].

(** [{type: 'integer', minimum: 0, maximum: 100, multipleOf: 5}] *)
Definition percent : Property.t :=
  Property.setMultipleOf
    (Property.setMaximum
       (Property.setMinimum
          (Property.new "percent" (descr "integer") no_legacy)
          (Num.of_Z 0))
       (Num.of_Z 100))
    (Num.of_Z 5).

Definition state (p : Property.t) : Property.State :=
  {| Property.this := p; Property.device := idle |}.

(** A property whose device has been notified once, of this very
    property. *)
Definition notified (p : Property.t) : Property.State :=
  {| Property.this := p;
     Property.device := {| Property.notifyPropertyChanged_calls := [p] |} |}.

(** [on] once [true] is cached. *)
Definition on_true : Property.t := Property.set_value on (VBool true).

(** [level], declared as a [Property<number | null>], after
    [setCachedValue(null)]. *)
Definition level_null : Property.t := Property.set_value level VNull.

(** [level] after [setCachedValue(NaN)] and a read. *)
Definition level_nan : Property.t :=
  Property.set_prevGetValue (Property.set_value level (VNumber Num.NaN))
    (VNumber Num.NaN).

Definition one : JsValue := VNumber (Num.of_Z 1).
Definition five : JsValue := VNumber (Num.of_Z 5).

(** A clock rendering for the action examples: the instant in decimal. *)
Definition instant (t : Z) : string :=
  if t <? 0 then "-" ++ Engine.digits (- t) else Engine.digits t.

Definition morning : Action.Env :=
  {| Action.clock := 1000; Action.actionNotify_calls := [] |}.

End Examples.

(** ** Sequences of calls

    What a caller does with a property or an action over time: a list of
    method calls, run one after the other on the state the one before
    left. *)

Module PropertyCalls.

Inductive Call : Type :=
| SetValue (v : JsValue)
| SetCachedValue (v : JsValue)
| SetCachedValueAndNotify (v : JsValue)
| GetValue.

Section Run.

Context {E : JsEngine}.

(** The state one call leaves; what the call returns or settles with is
    dropped. *)
Definition call (st : Property.State) (c : Call) : Property.State :=
  match c with
  | SetValue v => snd (Property.setValue st v)
  | SetCachedValue v =>
      {| Property.this := snd (Property.setCachedValue (Property.this st) v);
         Property.device := Property.device st |}
  | SetCachedValueAndNotify v => snd (Property.setCachedValueAndNotify st v)
  | GetValue =>
      {| Property.this := snd (Property.getValue (Property.this st));
         Property.device := Property.device st |}
  end.

Definition calls (st : Property.State) (cs : list Call) : Property.State :=
  fold_left call cs st.

End Run.

(** The calls that may notify the device. *)
Definition may_notify (c : Call) : bool :=
  match c with
  | SetValue _ | SetCachedValueAndNotify _ => true
  | SetCachedValue _ | GetValue => false
  end.

(** The calls that are not the silent write. *)
Definition not_silent (c : Call) : bool :=
  match c with SetCachedValue _ => false | _ => true end.

(** The property with its two run-time fields blanked: what is left is the
    description, the name, [visible] and [fireAndForget]. *)
Definition metadata (p : Property.t) : Property.t :=
  Property.set_prevGetValue (Property.set_value p VUndefined) VUndefined.

Definition is_boolean (v : JsValue) : bool :=
  match v with VBool _ => true | _ => false end.

Definition is_boolean_or_undefined (v : JsValue) : bool :=
  match v with VBool _ | VUndefined => true | _ => false end.

(** No two neighbours of the list hold values that are [===]. *)
Fixpoint no_repeat (l : list Property.t) : bool :=
  match l with
  | a :: (b :: _) as l' =>
      strict_neq (Property.value a) (Property.value b) && no_repeat l'
  | _ => true
  end.

(** The value the device was told last, if it was told any. *)
Fixpoint last_value (l : list Property.t) : option JsValue :=
  match l with
  | [] => None
  | [a] => Some (Property.value a)
  | _ :: l' => last_value l'
  end.

(** The cache agrees with what the device was told last: it is that very
    value, or is [===] to it. *)
Definition in_sync (st : Property.State) : Prop :=
  match last_value
          (Property.notifyPropertyChanged_calls (Property.device st)) with
  | None => True
  | Some x =>
      Property.value (Property.this st) = x
      \/ strict_eq (Property.value (Property.this st)) x = true
  end.

End PropertyCalls.

Module ActionCalls.

Inductive Call : Type :=
| Start
| Finish
| Elapse (d : N).

Section Run.

Variable format : Z -> string.

Definition call (st : Action.t * Action.Env) (c : Call)
  : Action.t * Action.Env :=
  match c with
  | Start => Action.start (fst st) (snd st)
  | Finish => Action.finish format (fst st) (snd st)
  | Elapse d => (fst st, Action.elapse d (snd st))
  end.

Definition calls (st : Action.t * Action.Env) (cs : list Call)
  : Action.t * Action.Env :=
  fold_left call cs st.

End Run.

(** The calls that notify the device. *)
Definition notifies (c : Call) : bool :=
  match c with Start | Finish => true | Elapse _ => false end.

Definition is_finish (c : Call) : bool :=
  match c with Finish => true | _ => false end.

End ActionCalls.

(** ** Properties of the write path *)

Unset Implicit Arguments.

(** The Numbers of the literals [0.3] and [0.1] are 0x1.3333333333333p-2
    and 0x1.999999999999ap-4. *)
Example literals_third_tenth :
  Num.decimal 3 (-1) = S754_finite false 0x13333333333333 (-54)
  /\ Num.decimal 1 (-1) = S754_finite false 0x1999999999999a (-56).
Proof. vm_compute. split; reflexivity. Qed.

(** Their quotient in binary64, seen on the integers: the exact quotient
    [4 * 0x13333333333333 / 0x1999999999999a] is less than half a unit in
    the last place away from [6755399441055743 * 2^-51], and that Number is
    less than 3. *)
Example quotient_is_nearest :
  2 * Z.abs (4 * 0x13333333333333 * 2 ^ 51
             - 6755399441055743 * 0x1999999999999a)
    < 0x1999999999999a
  /\ 6755399441055743 < 3 * 2 ^ 51.
Proof. vm_compute. split; reflexivity. Qed.

(** The reference engine on some Numbers and strings. *)
Example NumberToString_samples :
  NumberToString (Num.decimal 1 (-1)) = "0.1"
  /\ NumberToString (Num.of_Z 100) = "100"
  /\ NumberToString (Num.decimal (-15) (-1)) = "-1.5"
  /\ NumberToString (Num.decimal 1 21) = "1e+21"
  /\ NumberToString (Num.decimal 1 (-7)) = "1e-7"
  /\ NumberToString (Num.decimal 123456 (-9)) = "0.000123456"
  /\ NumberToString Num.NaN = "NaN"
  /\ NumberToString (S754_zero true) = "0".
Proof. vm_compute. repeat split. Qed.

Example StringToNumber_samples :
  StringToNumber "0.3" = Num.decimal 3 (-1)
  /\ StringToNumber " 12 " = Num.of_Z 12
  /\ StringToNumber "" = Num.zero
  /\ StringToNumber "1e3" = Num.of_Z 1000
  /\ StringToNumber "0x1F" = Num.of_Z 31
  /\ StringToNumber "-Infinity" = S754_infinity true
  /\ StringToNumber "dim" = Num.NaN
  /\ StringToNumber "[object Object]" = Num.NaN.
Proof. vm_compute. repeat split. Qed.

Section SetValue.

Context {E : JsEngine}.

Import Property.

(** Each guard of the source decides what the specification words for its
    constraint. *)
Lemma isReadOnly_violates (p : t) (v : JsValue) :
  isReadOnly p = Pipeline.violates p v Pipeline.ReadOnly.
Proof.
  unfold isReadOnly. cbn [Pipeline.violates].
  now destruct (readOnly p) as [[]|].
Qed.

Lemma lessThanMinimum_violates (p : t) (v : JsValue) :
  lessThanMinimum p v = Pipeline.violates p v Pipeline.Minimum.
Proof. reflexivity. Qed.

Lemma greaterThanMaximum_violates (p : t) (v : JsValue) :
  greaterThanMaximum p v = Pipeline.violates p v Pipeline.Maximum.
Proof. reflexivity. Qed.

Lemma notMultiple_violates (p : t) (v : JsValue) :
  notMultiple p v = Pipeline.violates p v Pipeline.MultipleOf.
Proof. reflexivity. Qed.

Lemma invalidEnum_violates (p : t) (v : JsValue) :
  invalidEnum p v = Pipeline.violates p v Pipeline.Enum.
Proof.
  unfold invalidEnum. cbn [Pipeline.violates].
  destruct (enum p) as [[|x l]|]; try reflexivity.
  cbn [List.length Nat.ltb Nat.leb andb]. unfold includes.
  destruct (in_dec string_dec (ToString v) (x :: l)) as [I|N].
  - apply negb_false_iff, existsb_exists.
    exists (ToString v). split; [exact I|apply String.eqb_refl].
  - apply negb_true_iff.
    destruct (existsb (String.eqb (ToString v)) (x :: l)) eqn:X;
      [|reflexivity].
    apply existsb_exists in X. destruct X as (y & I & Q).
    apply String.eqb_eq in Q. subst y. contradiction.
Qed.

Lemma bound_render (o : option Num.t) : Pipeline.bound o = render o.
Proof. now destruct o. Qed.

(** The first failure, read off the guards of the source. *)
Lemma first_failure_guards (p : t) (v : JsValue) :
  Pipeline.first_failure p v Pipeline.order =
    if isReadOnly p then Some Pipeline.ReadOnly
    else if lessThanMinimum p v then Some Pipeline.Minimum
    else if greaterThanMaximum p v then Some Pipeline.Maximum
    else if notMultiple p v then Some Pipeline.MultipleOf
    else if invalidEnum p v then Some Pipeline.Enum
    else None.
Proof.
  cbn [Pipeline.first_failure Pipeline.order].
  now rewrite <- isReadOnly_violates, <- lessThanMinimum_violates,
    <- greaterThanMaximum_violates, <- notMultiple_violates,
    <- invalidEnum_violates.
Qed.

(** A settled [setValue] either rejected and left the state alone, or ran
    [setCachedValueAndNotify]. *)
Lemma setValue_cases (st : State) (v : JsValue) :
  (exists c, Pipeline.first_failure (this st) v Pipeline.order = Some c /\
             setValue st v = (Rejected (Pipeline.reason (this st) c), st))
  \/ (Pipeline.first_failure (this st) v Pipeline.order = None /\
      setValue st v =
        (Resolved (value (this (snd (setCachedValueAndNotify st v)))),
         snd (setCachedValueAndNotify st v))).
Proof.
  rewrite first_failure_guards. unfold setValue.
  destruct (isReadOnly (this st));
    [left; exists Pipeline.ReadOnly; now split|].
  destruct (lessThanMinimum (this st) v);
    [left; exists Pipeline.Minimum; split; [reflexivity|];
     cbn [Pipeline.reason]; now rewrite bound_render|].
  destruct (greaterThanMaximum (this st) v);
    [left; exists Pipeline.Maximum; split; [reflexivity|];
     cbn [Pipeline.reason]; now rewrite bound_render|].
  destruct (notMultiple (this st) v);
    [left; exists Pipeline.MultipleOf; split; [reflexivity|];
     cbn [Pipeline.reason]; now rewrite bound_render|].
  destruct (invalidEnum (this st) v);
    [left; exists Pipeline.Enum; now split|].
  right. now split.
Qed.

(** What [setValue] does once every guard has let the value through. *)
Lemma setValue_accepts (st : State) (v : JsValue) :
  Pipeline.first_failure (this st) v Pipeline.order = None ->
  setValue st v =
    (Resolved (value (this (snd (setCachedValueAndNotify st v)))),
     snd (setCachedValueAndNotify st v)).
Proof.
  intros F. destruct (setValue_cases st v) as [(c & F' & _) | (_ & R)];
    [congruence|exact R].
Qed.

(** The cache after [setCachedValue]. *)
Lemma setCachedValue_value (p : t) (v : JsValue) :
  value (snd (setCachedValue p v)) =
    if String.eqb (type p) "boolean" then VBool (ToBoolean v) else v.
Proof.
  unfold setCachedValue. cbn [snd].
  now destruct (String.eqb (type p) "boolean").
Qed.


(** The state after [setCachedValueAndNotify]: the property is the one
    [setCachedValue] leaves, and the device got one call exactly when the
    cached value changed. *)
Lemma setCachedValueAndNotify_state (st : State) (v : JsValue) :
  let p' := snd (setCachedValue (this st) v) in
  let changed := strict_neq (value (this st)) (value p') in
  setCachedValueAndNotify st v =
    (changed,
     {| this := p';
        device :=
          {| notifyPropertyChanged_calls :=
               notifyPropertyChanged_calls (device st)
                 ++ (if changed then [p'] else []) |} |}).
Proof.
  cbv zeta. unfold setCachedValueAndNotify, notifyPropertyChanged.
  destruct (strict_neq _ _); [reflexivity|].
  rewrite app_nil_r. now destruct st as [p [calls]].
Qed.

(** What [setCachedValueAndNotify] does is what the specification says of
    an accepted write. *)
Lemma accept_setCachedValueAndNotify (st : State) (v : JsValue) :
  Pipeline.accept st v =
    (Resolved (value (this (snd (setCachedValueAndNotify st v)))),
     snd (setCachedValueAndNotify st v)).
Proof.
  rewrite (setCachedValueAndNotify_state st v). cbv zeta.
  cbn [snd this]. rewrite setCachedValue_value.
  unfold Pipeline.accept, setCachedValue, strict_neq. cbn [snd].
  destruct st as [p [calls]]. cbn [this device notifyPropertyChanged_calls].
  destruct (String.eqb (type p) "boolean"); cbn [value set_value];
    destruct (strict_eq (value p) _); cbn [negb];
    rewrite ?app_nil_r; reflexivity.
Qed.

(** [setValue] is the pipeline of the specification. *)
Lemma setValue_is_pipeline (st : State) (v : JsValue) :
  setValue st v = Pipeline.run st v.
Proof.
  unfold Pipeline.run.
  destruct (setValue_cases st v) as [(c & F & R) | (F & R)];
    rewrite F, R; [reflexivity|].
  now rewrite accept_setCachedValueAndNotify.
Qed.

End SetValue.

(** ** The promises and the executors

    On a value whose conversions complete the promise of a method settles
    as its executor says; otherwise it is rejected with the value thrown,
    and the state is left as it was. *)

Section Promises.

Context {E : JsEngine}.

Import Property.

(** The promise of [setValue] settles as the executor does, or it is
    rejected with what the conversion of the value throws; the latter needs
    a property that is not read-only and a value that is an object. *)
Lemma Promise_setValue_cases (st : State) (v : JsValue) :
  Promise.setValue st v = setValue st v
  \/ (exists e r,
        v = VObject r /\ ObjectThrows r = Some e
        /\ isReadOnly (this st) = false
        /\ Promise.setValue st v = (RejectedWith e, st)).
Proof.
  unfold Promise.setValue, setValue, Promise.bound_error, Promise.enum_error.
  destruct (isReadOnly (this st)); [now left|].
  destruct (Promise.conversion_error v) as [e|] eqn:C.
  - assert (O : exists r, v = VObject r /\ ObjectThrows r = Some e).
    { destruct v; try discriminate C. now eexists. }
    destruct O as (r & -> & T).
    unfold lessThanMinimum, greaterThanMaximum, notMultiple, invalidEnum.
    destruct (minimum (this st));
      [right; exists e, r; now repeat split|].
    destruct (maximum (this st));
      [right; exists e, r; now repeat split|].
    destruct (multipleOf (this st));
      [right; exists e, r; now repeat split|].
    destruct (enum (this st)) as [[|x l]|]; [now left| |now left].
    right. exists e, r. now repeat split.
  - left.
    destruct (minimum (this st)), (maximum (this st)),
      (multipleOf (this st)), (enum (this st)) as [[|x l]|]; reflexivity.
Qed.

Lemma Promise_setValue_converts (st : State) (v : JsValue) :
  Promise.conversion_error v = None ->
  Promise.setValue st v = setValue st v.
Proof.
  intros C.
  destruct (Promise_setValue_cases st v) as [Q | (e & r & -> & T & _)];
    [exact Q|].
  cbn in C. congruence.
Qed.

(** The promise of [getValue] settles as the executor does where the
    comparison completes. *)
Lemma Promise_getValue_converts (p : t) :
  Promise.loose_error (value p) (prevGetValue p) = None ->
  Promise.getValue p = getValue p.
Proof. intros C. unfold Promise.getValue. now rewrite C. Qed.

End Promises.

(** On the reference heap [Object.create(null)] cannot be written to a
    property with a bound: the promise is rejected with the TypeError, and
    nothing changes.  It can be cached where no guard converts it, and then
    a read that has to compare it with an earlier number is rejected
    too. *)
Example bare_object_throws :
  Promise.setValue (Examples.state Examples.percent) (VObject 1)
    = (RejectedWith (VObject 5), Examples.state Examples.percent)
  /\ fst (Promise.setValue (Examples.state Examples.level) (VObject 1))
     = Resolved (VObject 1)
  /\ Promise.getValue
       (Property.set_prevGetValue
          (Property.set_value Examples.level (VObject 1)) Examples.five)
     = (RejectedWith (VObject 5),
        Property.set_prevGetValue
          (Property.set_value Examples.level (VObject 1)) Examples.five).
Proof. vm_compute. repeat split. Qed.

(** The examples are the properties their comments construct. *)
Example tenths_constructed :
  Examples.tenths =
    Property.new "level"
      (PropertyDescription.mk None "number" None None None None None None None
         (Some (Num.decimal 1 (-1))) None None)
      Examples.no_legacy.
Proof. reflexivity. Qed.

Example sensor_constructed :
  Examples.sensor =
    Property.new "level"
      (PropertyDescription.mk None "number" None None None None None None
         (Some true) None None None)
      Examples.no_legacy.
Proof. reflexivity. Qed.

(** The arithmetic of the multiple-of guard at 0.3 and 0.1: the quotient is
    the Number just below 3, [Math.round] gives 3, and the difference is
    -2^-51, which is not zero. *)
Example quotient_third_tenth :
  Num.div (Num.decimal 3 (-1)) (Num.decimal 1 (-1))
    = S754_finite false 6755399441055743 (-51)
  /\ Num.round (S754_finite false 6755399441055743 (-51)) = Num.of_Z 3
  /\ Num.sub (S754_finite false 6755399441055743 (-51)) (Num.of_Z 3)
    = S754_finite true 4503599627370496 (-103)
  /\ NumberToString (S754_finite false 6755399441055743 (-51))
    = "2.9999999999999996".
Proof. vm_compute. repeat split. Qed.

(** Where the quotient happens to be exact the guard lets the value
    through: 0.2 and 0.5 are accepted as multiples of 0.1. *)
Example tenths_accepts_fifth_and_half :
  fst (Property.setValue (Examples.state Examples.tenths)
         (VNumber (Num.decimal 2 (-1))))
    = Resolved (VNumber (Num.decimal 2 (-1)))
  /\ fst (Property.setValue (Examples.state Examples.tenths)
            (VNumber (Num.decimal 5 (-1))))
    = Resolved (VNumber (Num.decimal 5 (-1))).
Proof. vm_compute. split; reflexivity. Qed.

(** C1 (the code departs from the claim): with [multipleOf = 0.1] the call
    [setValue(0.3)] does not succeed.  The guard compares the difference
    between the quotient and its rounding with zero exactly, with no
    tolerance, so the call is rejected with the not-a-multiple reason and
    the state is left as it was. *)
Theorem C1_setValue_third_of_tenths_rejected :
  Property.setValue (Examples.state Examples.tenths)
    (VNumber (Num.decimal 3 (-1)))
  = (Rejected "Value is not a multiple of: 0.1",
     Examples.state Examples.tenths).
Proof. vm_compute. reflexivity. Qed.

Section WritePath.

Context {E : JsEngine}.

Import Property.

(** C2: a [setValue] call that passes every check resolves with the
    cached value, which is the coerced input, and calls
    [device.notifyPropertyChanged] exactly once when the cached value
    after the write is [!==] the cached value before it, and not at all
    when the two are [===]. *)
Theorem C2_notifies_once_iff_changed
    (st st' : State) (v r : JsValue)
    (H : setValue st v = (Resolved r, st')) :
  r = value (this st')
  /\ value (this st') =
       (if String.eqb (type (this st)) "boolean"
        then VBool (ToBoolean v) else v)
  /\ notifyPropertyChanged_calls (device st') =
       (notifyPropertyChanged_calls (device st)
          ++ (if strict_neq (value (this st)) (value (this st'))
              then [this st'] else []))%list
  /\ List.length (notifyPropertyChanged_calls (device st')) =
       (List.length (notifyPropertyChanged_calls (device st))
        + (if strict_neq (value (this st)) (value (this st'))
           then 1 else 0))%nat.
Proof.
  destruct (setValue_cases st v) as [(c & _ & R) | (_ & R)];
    rewrite R in H; [discriminate|].
  rewrite (setCachedValueAndNotify_state st v) in H. cbv zeta in H.
  cbn [snd] in H. injection H as Hr Hst. subst r st'.
  cbn [this device notifyPropertyChanged_calls].
  split; [reflexivity|].
  split; [apply setCachedValue_value|].
  split; [reflexivity|].
  rewrite length_app.
  now destruct (strict_neq _ _).
Qed.

(** C3: a rejected [setValue] leaves the whole state as it was, so the
    cached value is the one before the call and the device received no
    call; the reason is that of the first failing check.  A property
    whose [readOnly] is [true] rejects every value. *)
Theorem C3_rejection_leaves_state
    (st st' : State) (v : JsValue) (msg : string)
    (H : setValue st v = (Rejected msg, st')) :
  st' = st
  /\ value (this st') = value (this st)
  /\ notifyPropertyChanged_calls (device st') =
       notifyPropertyChanged_calls (device st)
  /\ (exists c, Pipeline.first_failure (this st) v Pipeline.order = Some c
                /\ msg = Pipeline.reason (this st) c)
  /\ (forall (p : t) (d : Device) (w : JsValue),
        setValue {| this := setReadOnly p true; device := d |} w =
          (Rejected "Read-only property",
           {| this := setReadOnly p true; device := d |})).
Proof.
  destruct (setValue_cases st v) as [(c & F & R) | (_ & R)];
    rewrite R in H; [|discriminate].
  injection H as Hmsg Hst. subst st' msg.
  repeat split; try reflexivity.
  now exists c.
Qed.

End WritePath.

(** The example of C2: on a fresh boolean property [setValue(1)] caches
    [true] and notifies once; [setValue(true)] right after it finds the
    cache unchanged and does not notify. *)
Lemma C2_witness :
  Property.setValue (Examples.state Examples.on) Examples.one
    = (Resolved (VBool true), Examples.notified Examples.on_true)
  /\ List.length (Property.notifyPropertyChanged_calls
                    (Property.device (Examples.notified Examples.on_true)))
     = 1%nat
  /\ Property.setValue (Examples.notified Examples.on_true) (VBool true)
    = (Resolved (VBool true), Examples.notified Examples.on_true)
  /\ Property.notifyPropertyChanged_calls
       (Property.device (Examples.notified Examples.on_true))
     = (Property.notifyPropertyChanged_calls
          (Property.device (Examples.notified Examples.on_true)) ++ [])%list.
Proof.
  assert (H1 : Property.setValue (Examples.state Examples.on) Examples.one
               = (Resolved (VBool true), Examples.notified Examples.on_true))
    by reflexivity.
  assert (H2 : Property.setValue (Examples.notified Examples.on_true)
                 (VBool true)
               = (Resolved (VBool true), Examples.notified Examples.on_true))
    by reflexivity.
  split; [exact H1|].
  split; [exact (proj2 (proj2 (proj2 (C2_notifies_once_iff_changed _ _ _ _ H1))))|].
  split; [exact H2|].
  exact (proj1 (proj2 (proj2 (C2_notifies_once_iff_changed _ _ _ _ H2)))).
Defined.

(** An example of C3: 105 on a property bounded by 100. *)
Lemma C3_witness :
  Property.setValue (Examples.state Examples.percent)
      (VNumber (Num.of_Z 105))
    = (Rejected "Value greater than maximum: 100",
       Examples.state Examples.percent)
  /\ Property.value (Property.this (Examples.state Examples.percent))
     = VUndefined
  /\ Property.notifyPropertyChanged_calls
       (Property.device (Examples.state Examples.percent)) = [].
Proof.
  assert (H : Property.setValue (Examples.state Examples.percent)
                (VNumber (Num.of_Z 105))
              = (Rejected "Value greater than maximum: 100",
                 Examples.state Examples.percent))
    by (vm_compute; reflexivity).
  split; [exact H|].
  split.
  - exact (proj1 (proj2 (C3_rejection_leaves_state _ _ _ _ H))).
  - exact (proj1 (proj2 (proj2 (C3_rejection_leaves_state _ _ _ _ H)))).
Defined.

(** ** The cache of a boolean property *)

Example ToBoolean_representations :
  ToBoolean (VNumber (Num.of_Z 0)) = false
  /\ ToBoolean (VString "") = false
  /\ ToBoolean (VNumber (Num.of_Z 1)) = true
  /\ ToBoolean (VString "x") = true
  /\ ToBoolean (VObject 0) = true
  /\ ToBoolean (VNumber Num.NaN) = false
  /\ ToBoolean VNull = false
  /\ ToBoolean VUndefined = false.
Proof. repeat split. Qed.

Section BooleanCache.

Context {E : JsEngine}.

Import Property.

(** A read of a property whose cache holds [x] resolves with [x]. *)
Lemma getValue_resolves (p : t) : fst (getValue p) = Resolved (value p).
Proof.
  unfold getValue. cbn [fst].
  now destruct (loose_neq (value p) (prevGetValue p)).
Qed.


End BooleanCache.


(** ** The outward views *)

(** C5 as the claim reads fails on a property that has only a type: its
    description has the key [title], though [title] is undefined. *)
Lemma C5_counterexample :
  ~ Contract.omits_undefined Examples.level
      (Property.asPropertyDescription Examples.level).
Proof.
  intro S.
  assert (A : has_key (Property.asPropertyDescription Examples.level) "title"
              = false).
  { apply S. left. reflexivity. }
  discriminate A.
Qed.

(** C5 (amended): [asPropertyDescription] returns an object literal with
    all eleven keys, always; each optional field is stored as the property
    holds it, so a field that is undefined on the property is a key whose
    value is [undefined]; no key holds [null]; [type] is always there, with
    the type of the property. *)
Theorem C5_description_is_dense (p : Property.t) :
  keys (Property.asPropertyDescription p) =
    ["title"; "type"; "@type"; "unit"; "description"; "minimum"; "maximum";
     "enum"; "readOnly"; "multipleOf"; "links"]
  /\ get (Property.asPropertyDescription p) "type"
     = Some (FVal (VString (Property.type p)))
  /\ (forall k f, In (k, f) (Contract.optional_fields p) ->
                  get (Property.asPropertyDescription p) k = Some f)
  /\ get (Property.asPropertyDescription p) "links"
     = Some (FLinks (Property.links p))
  /\ Contract.no_null (Property.asPropertyDescription p).
Proof.
  split; [reflexivity|].
  split; [reflexivity|].
  split.
  - intros k f I. cbn in I.
    repeat (destruct I as [I|I]; [injection I as <- <-; reflexivity|]).
    contradiction.
  - split; [reflexivity|].
    intros k. unfold Property.asPropertyDescription. cbn [get].
    repeat match goal with
           | |- context [String.eqb k ?s] => destruct (String.eqb k s)
           end;
      try discriminate;
      try (destruct (Property.title p); discriminate);
      try (destruct (Property.atType p); discriminate);
      try (destruct (Property.unit p); discriminate);
      try (destruct (Property.description p); discriminate);
      try (destruct (Property.minimum p); discriminate);
      try (destruct (Property.maximum p); discriminate);
      try (destruct (Property.enum p); discriminate);
      try (destruct (Property.readOnly p); discriminate);
      try (destruct (Property.multipleOf p); discriminate).
Qed.

(** C4 (the code departs from the claim): the description of a fresh action
    constructed with an undefined input has five keys; [input] and
    [timeCompleted] are both there and hold [undefined].  The two guards
    compare with [null], and a field that was never set is [undefined],
    which is [!== null].  So the description is not free of
    placeholders. *)
Theorem C4_fresh_action_description_has_placeholders
    (format : Z -> string) (env : Action.Env) (id name : string) :
  Action.asActionDescription (Action.new format env id name VUndefined) =
    [ ("name", FVal (VString name));
      ("timeRequested", FVal (VString (format (Action.clock env))));
      ("status", FVal (VString "created"));
      ("input", FVal VUndefined);
      ("timeCompleted", FVal VUndefined) ]
  /\ ~ Contract.no_placeholder
         (Action.asActionDescription (Action.new format env id name VUndefined)).
Proof.
  split; [reflexivity|].
  intro P. destruct (P "timeCompleted") as [_ U]. now apply U.
Qed.

(** [timeCompleted] is a key of the description of every action, finished
    or not: the guard before it never fails. *)
Lemma asActionDescription_timeCompleted (a : Action.t) :
  get (Action.asActionDescription a) "timeCompleted"
  = Some (FVal (opt_string (Action.timeCompleted a))).
Proof.
  unfold Action.asActionDescription.
  assert (G : strict_neq (opt_string (Action.timeCompleted a)) VNull = true)
    by now destruct (Action.timeCompleted a).
  rewrite G.
  destruct (strict_neq (Action.input a) VNull); reflexivity.
Qed.

(** [input] is left out exactly when it is [null]. *)
Lemma asActionDescription_input (a : Action.t) :
  get (Action.asActionDescription a) "input"
  = if strict_neq (Action.input a) VNull
    then Some (FVal (Action.input a)) else None.
Proof.
  unfold Action.asActionDescription.
  assert (G : strict_neq (opt_string (Action.timeCompleted a)) VNull = true)
    by now destruct (Action.timeCompleted a).
  rewrite G.
  destruct (strict_neq (Action.input a) VNull); reflexivity.
Qed.

(** [name], [timeRequested] and [status] are always there. *)
Lemma asActionDescription_always (a : Action.t) :
  get (Action.asActionDescription a) "name"
    = Some (FVal (VString (Action.name a)))
  /\ get (Action.asActionDescription a) "timeRequested"
    = Some (FVal (VString (Action.timeRequested a)))
  /\ get (Action.asActionDescription a) "status"
    = Some (FVal (VString (Action.status a))).
Proof.
  unfold Action.asActionDescription.
  destruct (strict_neq (Action.input a) VNull);
    destruct (strict_neq (opt_string (Action.timeCompleted a)) VNull);
    repeat split.
Qed.

(** ** The life of an action *)

(** An action requested at instant 1000 with a [null] input, started 5
    later and finished 7 after that. *)
Example reboot_lifecycle :
  Action.finish Examples.instant
    (fst (Action.start
            (Action.new Examples.instant Examples.morning "1" "reboot" VNull)
            (Action.elapse 5 Examples.morning)))
    (Action.elapse 7
       (snd (Action.start
               (Action.new Examples.instant Examples.morning "1" "reboot"
                  VNull)
               (Action.elapse 5 Examples.morning))))
  = (Action.mk "completed" "1000" (Some "1012") "1" "reboot" VNull,
     {| Action.clock := 1012;
        Action.actionNotify_calls :=
          [ Action.mk "pending" "1000" None "1" "reboot" VNull;
            Action.mk "completed" "1000" (Some "1012") "1" "reboot" VNull ]
     |})
  /\ Action.asActionDescription
       (Action.mk "completed" "1000" (Some "1012") "1" "reboot" VNull)
     = [ ("name", FVal (VString "reboot"));
         ("timeRequested", FVal (VString "1000"));
         ("status", FVal (VString "completed"));
         ("timeCompleted", FVal (VString "1012")) ].
Proof. vm_compute. split; reflexivity. Qed.

(** C8: a fresh action has status ['created'], its [timeRequested] is the
    timestamp of its construction and it has no [timeCompleted]; [start]
    sets the status to ['pending'] and calls [actionNotify] once; [finish]
    sets the status to ['completed'], sets [timeCompleted] to the timestamp
    of an instant that is not before the instant of [timeRequested], and
    calls [actionNotify] once; so a [start] and a [finish] make two calls.
    Both operations are total functions: they return a state whatever the
    action and the environment are.  [d1] and [d2] are the times that pass
    before [start] and between [start] and [finish]. *)
Theorem C8_action_lifecycle
    (format : Z -> string) (env : Action.Env) (id name : string)
    (input : JsValue) (d1 d2 : N) :
  let a0 := Action.new format env id name input in
  let s1 := Action.start a0 (Action.elapse d1 env) in
  let s2 := Action.finish format (fst s1) (Action.elapse d2 (snd s1)) in
  (Action.status a0 = "created"
   /\ Action.timeRequested a0 = format (Action.clock env)
   /\ Action.timeCompleted a0 = None)
  /\ (Action.status (fst s1) = "pending"
      /\ Action.timeCompleted (fst s1) = None
      /\ Action.actionNotify_calls (snd s1)
         = (Action.actionNotify_calls env ++ [fst s1])%list)
  /\ (Action.status (fst s2) = "completed"
      /\ Action.timeRequested (fst s2) = format (Action.clock env)
      /\ Action.timeCompleted (fst s2)
         = Some (format (Action.clock env + Z.of_N d1 + Z.of_N d2))
      /\ Action.clock env <= Action.clock env + Z.of_N d1 + Z.of_N d2
      /\ Action.actionNotify_calls (snd s2)
         = (Action.actionNotify_calls env ++ [fst s1; fst s2])%list
      /\ List.length (Action.actionNotify_calls (snd s2))
         = (List.length (Action.actionNotify_calls env) + 2)%nat)
  /\ (forall (a : Action.t) (e : Action.Env),
        Action.status (fst (Action.start a e)) = "pending"
        /\ Action.actionNotify_calls (snd (Action.start a e))
           = (Action.actionNotify_calls e ++ [fst (Action.start a e)])%list)
  /\ (forall (a : Action.t) (e : Action.Env),
        Action.status (fst (Action.finish format a e)) = "completed"
        /\ Action.timeCompleted (fst (Action.finish format a e))
           = Some (Action.timestamp format e)
        /\ Action.actionNotify_calls (snd (Action.finish format a e))
           = (Action.actionNotify_calls e
                ++ [fst (Action.finish format a e)])%list).
Proof.
  cbv zeta. cbn.
  repeat split; try reflexivity.
  - lia.
  - now rewrite <- app_assoc.
  - rewrite <- app_assoc, length_app. reflexivity.
Qed.

(** ** The order of the checks *)

Section CheckOrder.

Context {E : JsEngine}.

Import Property.

(** The constraint [first_failure] returns is violated, and is in the
    list. *)
Lemma first_failure_violated (p : t) (v : JsValue)
    (cs : list Pipeline.Constraint) (c : Pipeline.Constraint) :
  Pipeline.first_failure p v cs = Some c ->
  In c cs /\ Pipeline.violates p v c = true.
Proof.
  induction cs as [|c0 cs IH]; cbn [Pipeline.first_failure]; [discriminate|].
  destruct (Pipeline.violates p v c0) eqn:V.
  - intros [= <-]. split; [now left|exact V].
  - intros F. destruct (IH F) as [I V']. split; [now right|exact V'].
Qed.

(** No constraint placed before it in [order] is violated. *)
Lemma first_failure_earliest (p : t) (v : JsValue)
    (c c' : Pipeline.Constraint) :
  Pipeline.first_failure p v Pipeline.order = Some c ->
  (Pipeline.rank c' < Pipeline.rank c)%nat ->
  Pipeline.violates p v c' = false.
Proof.
  cbn [Pipeline.first_failure Pipeline.order].
  destruct (Pipeline.violates p v Pipeline.ReadOnly) eqn:V0;
    [intros [= <-]; destruct c'; cbn; lia|].
  destruct (Pipeline.violates p v Pipeline.Minimum) eqn:V1;
    [intros [= <-]; destruct c'; cbn [Pipeline.rank]; (lia || auto)|].
  destruct (Pipeline.violates p v Pipeline.Maximum) eqn:V2;
    [intros [= <-]; destruct c'; cbn [Pipeline.rank]; (lia || auto)|].
  destruct (Pipeline.violates p v Pipeline.MultipleOf) eqn:V3;
    [intros [= <-]; destruct c'; cbn [Pipeline.rank]; (lia || auto)|].
  destruct (Pipeline.violates p v Pipeline.Enum) eqn:V4;
    [intros [= <-]; destruct c'; cbn [Pipeline.rank]; (lia || auto)|].
  discriminate.
Qed.

Lemma includes_In (l : list string) (s : string) :
  includes l s = true <-> In s l.
Proof.
  unfold includes. rewrite existsb_exists. split.
  - intros (x & I & Q). apply String.eqb_eq in Q. now subst.
  - intros I. exists s. split; [exact I|apply String.eqb_refl].
Qed.

(** [includes] does not look at the order of the members. *)
Lemma includes_Permutation (l l' : list string) (s : string) :
  Permutation l l' -> includes l s = includes l' s.
Proof.
  unfold includes.
  induction 1 as [|x l l' _ IH|x y l|l l' l'' _ IH1 _ IH2]; cbn [existsb].
  - reflexivity.
  - now rewrite IH.
  - now destruct (String.eqb s y), (String.eqb s x).
  - now rewrite IH1.
Qed.

(** When the enum guard fires. *)
Lemma invalidEnum_spec (p : t) (v : JsValue) :
  invalidEnum p v = true <->
  exists m, enum p = Some m /\ m <> [] /\ ~ In (ToString v) m.
Proof.
  unfold invalidEnum. destruct (enum p) as [m|].
  - rewrite andb_true_iff, negb_true_iff, Nat.ltb_lt. split.
    + intros [L I]. exists m. split; [reflexivity|]. split.
      * intros ->. cbn in L. lia.
      * intros I'. apply includes_In in I'. congruence.
    + intros (m' & [= <-] & N & I). split.
      * destruct m; [contradiction|cbn; lia].
      * destruct (includes m (ToString v)) eqn:I'; [|reflexivity].
        apply includes_In in I'. contradiction.
  - split; [discriminate|]. intros (m & Q & _). discriminate.
Qed.

Lemma invalidEnum_Permutation (p : t) (v : JsValue) (l l' : list string) :
  Permutation l l' ->
  invalidEnum (setEnum p l) v = invalidEnum (setEnum p l') v.
Proof.
  intros P. unfold invalidEnum. cbn [enum setEnum].
  now rewrite (Permutation_length P), (includes_Permutation l l' (ToString v) P).
Qed.

(** C7: [setValue] is the pipeline of the specification, whose checks are
    worded there without the guards of the source: it runs them in the
    order read-only, minimum, maximum, multipleOf, enum and rejects with
    the reason of the first one that fails; the constraint it reports is
    violated and none before it is, whatever the later ones would say.
    The enum check fires exactly when an enum is defined, is not empty and
    does not have the string rendering of the value among its members;
    reordering the members changes neither the check nor what [setValue]
    settles with.  The promise settles as the pipeline says, but where the
    value is an object whose conversion throws. *)
Theorem C7_checks_in_order
    (st : State) (v : JsValue) (l l' : list string)
    (H : Permutation l l') :
  setValue st v = Pipeline.run st v
  /\ Pipeline.order =
       [Pipeline.ReadOnly; Pipeline.Minimum; Pipeline.Maximum;
        Pipeline.MultipleOf; Pipeline.Enum]
  /\ (forall c,
        Pipeline.first_failure (this st) v Pipeline.order = Some c ->
        setValue st v = (Rejected (Pipeline.reason (this st) c), st)
        /\ Pipeline.violates (this st) v c = true
        /\ forall c', (Pipeline.rank c' < Pipeline.rank c)%nat ->
                      Pipeline.violates (this st) v c' = false)
  /\ (invalidEnum (this st) v = true <->
      exists m, enum (this st) = Some m /\ m <> []
                /\ ~ In (ToString v) m)
  /\ invalidEnum (setEnum (this st) l) v
     = invalidEnum (setEnum (this st) l') v
  /\ fst (setValue {| this := setEnum (this st) l; device := device st |} v)
     = fst (setValue
              {| this := setEnum (this st) l'; device := device st |} v)
  /\ (Promise.setValue st v = Pipeline.run st v
      \/ exists e r,
           v = VObject r /\ ObjectThrows r = Some e
           /\ Promise.setValue st v = (RejectedWith e, st)).
Proof.
  split; [apply setValue_is_pipeline|].
  split; [reflexivity|].
  split.
  { intros c F. split; [|split].
    - rewrite setValue_is_pipeline. unfold Pipeline.run. now rewrite F.
    - exact (proj2 (first_failure_violated _ _ _ _ F)).
    - intros c'. now apply first_failure_earliest. }
  split; [apply invalidEnum_spec|].
  split; [now apply invalidEnum_Permutation|].
  split;
    [|destruct (Promise_setValue_cases st v) as [Q | (e & r & V & T & _ & Q)];
      [left; rewrite Q; apply setValue_is_pipeline
      |right; now exists e, r]].
  unfold setValue. cbn [this].
  change (isReadOnly (setEnum (this st) l')) with (isReadOnly (this st)).
  change (isReadOnly (setEnum (this st) l)) with (isReadOnly (this st)).
  destruct (isReadOnly (this st)); [reflexivity|].
  change (lessThanMinimum (setEnum (this st) l') v)
    with (lessThanMinimum (this st) v).
  change (lessThanMinimum (setEnum (this st) l) v)
    with (lessThanMinimum (this st) v).
  destruct (lessThanMinimum (this st) v); [reflexivity|].
  change (greaterThanMaximum (setEnum (this st) l') v)
    with (greaterThanMaximum (this st) v).
  change (greaterThanMaximum (setEnum (this st) l) v)
    with (greaterThanMaximum (this st) v).
  destruct (greaterThanMaximum (this st) v); [reflexivity|].
  change (notMultiple (setEnum (this st) l') v)
    with (notMultiple (this st) v).
  change (notMultiple (setEnum (this st) l) v)
    with (notMultiple (this st) v).
  destruct (notMultiple (this st) v); [reflexivity|].
  rewrite (invalidEnum_Permutation (this st) v l l' H).
  destruct (invalidEnum (setEnum (this st) l') v); [reflexivity|].
  cbn [fst]. rewrite !setCachedValueAndNotify_state. cbv zeta.
  cbn [snd this]. rewrite !setCachedValue_value. reflexivity.
Qed.

End CheckOrder.

(** Examples of C7: the members of the enum of [mode] in another order,
    with a value that is not among them; and -3 on [percent], which is
    below the minimum and no multiple of 5, and is reported for the
    minimum. *)
Lemma C7_witness :
  Permutation ["off"; "heat"; "cool"] ["cool"; "off"; "heat"]
  /\ fst (Property.setValue
            {| Property.this :=
                 Property.setEnum
                   (Property.this (Examples.state Examples.mode))
                   ["off"; "heat"; "cool"];
               Property.device :=
                 Property.device (Examples.state Examples.mode) |}
            (VString "dim"))
     = fst (Property.setValue
              {| Property.this :=
                   Property.setEnum
                     (Property.this (Examples.state Examples.mode))
                     ["cool"; "off"; "heat"];
                 Property.device :=
                   Property.device (Examples.state Examples.mode) |}
              (VString "dim"))
  /\ Pipeline.violates Examples.percent (VNumber (Num.of_Z (-3)))
       Pipeline.MultipleOf = true
  /\ Property.setValue (Examples.state Examples.percent)
       (VNumber (Num.of_Z (-3)))
     = (Rejected "Value less than minimum: 0",
        Examples.state Examples.percent).
Proof.
  assert (P : Permutation ["off"; "heat"; "cool"] ["cool"; "off"; "heat"]).
  { apply Permutation_sym.
    apply (@Permutation_cons_app _ ["off"; "heat"] ["off"; "heat"] [] "cool").
    rewrite app_nil_r. apply Permutation_refl. }
  split; [exact P|].
  split.
  - exact (proj1 (proj2 (proj2 (proj2 (proj2 (proj2
             (C7_checks_in_order (Examples.state Examples.mode)
                (VString "dim") _ _ P))))))).
  - split; [reflexivity|].
    exact (proj1 (proj1 (proj2 (proj2
             (C7_checks_in_order (Examples.state Examples.percent)
                (VNumber (Num.of_Z (-3))) _ _ P)))
             Pipeline.Minimum eq_refl)).
Defined.

(** A value that breaks several constraints is reported for the earliest:
    105 is above the maximum of [percent], 100, and the message is that of
    the maximum; 7 is within the bounds but is no multiple of 5. *)
Example percent_first_failure :
  fst (Property.setValue (Examples.state Examples.percent)
         (VNumber (Num.of_Z 107)))
    = Rejected "Value greater than maximum: 100"
  /\ Pipeline.violates Examples.percent (VNumber (Num.of_Z 107))
       Pipeline.MultipleOf = true
  /\ fst (Property.setValue (Examples.state Examples.percent)
            (VNumber (Num.of_Z 7)))
    = Rejected "Value is not a multiple of: 5".
Proof. vm_compute. repeat split. Qed.

(** ** The rejection reasons *)




Section Reasons.

Context {E : JsEngine}.

Import Property.



End Reasons.



(** ** The read path *)

Example level_null_reached :
  snd (Property.setCachedValue Examples.level VNull) = Examples.level_null.
Proof. reflexivity. Qed.

(** C10 as the claim reads fails where the cache and [prevGetValue] are
    [==] without being the same value: after [setCachedValue(null)] on a
    fresh property a read leaves [prevGetValue] undefined, which is neither
    identical nor [===] to the cached [null].  It fails as well where the
    comparison throws: with [Object.create(null)] in the cache and 5 read
    before, the read is rejected with the TypeError. *)
Lemma C10_counterexample :
  Property.value (snd (Property.getValue Examples.level_null)) = VNull
  /\ Property.prevGetValue (snd (Property.getValue Examples.level_null))
     = VUndefined
  /\ Property.prevGetValue (snd (Property.getValue Examples.level_null))
     <> Property.value (snd (Property.getValue Examples.level_null))
  /\ strict_eq
       (Property.prevGetValue (snd (Property.getValue Examples.level_null)))
       (Property.value (snd (Property.getValue Examples.level_null)))
     = false
  /\ Promise.getValue Examples.level_null
     = Property.getValue Examples.level_null
  /\ fst (Promise.getValue
            (Property.set_prevGetValue
               (Property.set_value Examples.level (VObject 1))
               Examples.five))
     = RejectedWith (VObject 5).
Proof. repeat split. discriminate. Qed.

(** A cached NaN is copied to [prevGetValue] by every read, NaN being [!=]
    to itself; the two are then the same value, and still not [==]. *)
Example level_nan_read :
  snd (Property.getValue
         (snd (Property.setCachedValue Examples.level (VNumber Num.NaN))))
    = Examples.level_nan
  /\ snd (Property.getValue Examples.level_nan) = Examples.level_nan
  /\ loose_eq (Property.value Examples.level_nan)
       (Property.prevGetValue Examples.level_nan) = false.
Proof. repeat split. Qed.

Section ReadPath.

Context {E : JsEngine}.

Import Property.

(** C10 (amended): [getValue] rejects in one case only, when comparing the
    cached value with [prevGetValue] throws, which takes an object whose
    conversion to a primitive throws on one side and a number, a string or
    a boolean on the other; the promise is then rejected with the value
    thrown and the property is left as it was.  In every other state it
    resolves with the cached value; the property after the read is the
    property before it but for [prevGetValue], so the cached value and
    every description field are as they were; [prevGetValue] becomes the
    cached value when the two were [!=] before the read and is left alone
    otherwise, so that afterwards it is the cached value itself or its
    earlier content, which the cached value is [==] to. *)
Theorem C10_getValue_frame (p : t) :
  match Promise.loose_error (value p) (prevGetValue p) with
  | Some e =>
      Promise.getValue p = (RejectedWith e, p)
      /\ exists r,
           ObjectThrows r = Some e
           /\ (value p = VObject r \/ prevGetValue p = VObject r)
  | None =>
      fst (Promise.getValue p) = Resolved (value p)
      /\ snd (Promise.getValue p)
         = set_prevGetValue p (prevGetValue (snd (Promise.getValue p)))
      /\ value (snd (Promise.getValue p)) = value p
      /\ (name (snd (Promise.getValue p)) = name p
          /\ title (snd (Promise.getValue p)) = title p
          /\ type (snd (Promise.getValue p)) = type p
          /\ atType (snd (Promise.getValue p)) = atType p
          /\ unit (snd (Promise.getValue p)) = unit p
          /\ description (snd (Promise.getValue p)) = description p
          /\ minimum (snd (Promise.getValue p)) = minimum p
          /\ maximum (snd (Promise.getValue p)) = maximum p
          /\ enum (snd (Promise.getValue p)) = enum p
          /\ readOnly (snd (Promise.getValue p)) = readOnly p
          /\ multipleOf (snd (Promise.getValue p)) = multipleOf p
          /\ links (snd (Promise.getValue p)) = links p
          /\ visible (snd (Promise.getValue p)) = visible p
          /\ fireAndForget (snd (Promise.getValue p)) = fireAndForget p)
      /\ prevGetValue (snd (Promise.getValue p))
         = (if loose_neq (value p) (prevGetValue p)
            then value p else prevGetValue p)
      /\ (prevGetValue (snd (Promise.getValue p))
            = value (snd (Promise.getValue p))
          \/ (prevGetValue (snd (Promise.getValue p)) = prevGetValue p
              /\ loose_eq (value (snd (Promise.getValue p)))
                   (prevGetValue (snd (Promise.getValue p))) = true))
  end.
Proof.
  destruct (Promise.loose_error (value p) (prevGetValue p)) as [e|] eqn:C.
  - split; [unfold Promise.getValue; now rewrite C|].
    unfold Promise.loose_error, Promise.conversion_error in C.
    destruct (value p) as [| |x|x|x|r], (prevGetValue p) as [| |y|y|y|r'];
      try discriminate C;
      first [exists r; split; [exact C|now left]
            |exists r'; split; [exact C|now right]].
  - rewrite (Promise_getValue_converts p C).
    split; [apply getValue_resolves|].
    unfold getValue. cbn [snd].
    unfold loose_neq.
    destruct (loose_eq (value p) (prevGetValue p)) eqn:Q; cbn [negb].
    + split; [now destruct p|].
      split; [reflexivity|].
      split; [now repeat split|].
      split; [reflexivity|].
      right. now split.
    + split; [reflexivity|].
      split; [reflexivity|].
      split; [now repeat split|].
      split; [reflexivity|].
      now left.
Qed.

End ReadPath.

(** ** More on the guards of the write path *)

Lemma Num_ltb_irrefl (x : Num.t) : Num.ltb x x = false.
Proof.
  unfold Num.ltb, SFltb, SFcompare.
  destruct x as [s|s| |s m e]; try destruct s; try reflexivity;
    rewrite Z.compare_refl, Pos.compare_cont_refl; reflexivity.
Qed.

(** What [Num.eqb] holds of: two zeros of any sign, or one and the same
    Number that is not NaN. *)
Lemma Num_eqb_true (x y : Num.t) :
  Num.eqb x y = true ->
  (exists s s', x = S754_zero s /\ y = S754_zero s')
  \/ (x = y /\ x <> S754_nan).
Proof.
  unfold Num.eqb, SFeqb, SFcompare.
  destruct x as [s|s| |s m e], y as [s'|s'| |s' m' e'];
    try discriminate; try (destruct s; discriminate);
    try (destruct s'; discriminate).
  - intros _. left. now exists s, s'.
  - destruct s, s'; try discriminate; intros _; right; split;
      (reflexivity || discriminate).
  - destruct s, s'; try discriminate;
      destruct (Z.compare e e') eqn:Ce; try discriminate;
      apply Z.compare_eq in Ce;
      destruct (Pos.compare_cont Eq m m') eqn:Cm; try discriminate;
      apply Pos.compare_eq in Cm; subst; intros _; right; split;
      (reflexivity || discriminate).
Qed.

Lemma Num_eqb_refl (x : Num.t) : x <> S754_nan -> Num.eqb x x = true.
Proof.
  unfold Num.eqb, SFeqb, SFcompare.
  destruct x as [s|s| |s m e]; try destruct s; try reflexivity;
    try (intros N; now elim N);
    rewrite Z.compare_refl, Pos.compare_cont_refl; reflexivity.
Qed.

Lemma Num_eqb_zeros (s s' : bool) :
  Num.eqb (S754_zero s) (S754_zero s') = true.
Proof. reflexivity. Qed.

Section Guards.

Context {E : JsEngine}.

Import Property.

(** The bounds are inclusive, each on its own: on a property with a
    minimum, with or without a maximum, the minimum itself is not less than
    the minimum; on a property with a maximum, with or without a minimum,
    the maximum itself is not greater than the maximum.  So neither range
    check rejects a Number equal to its bound. *)
Theorem bounds_are_inclusive (p : t) (b : Num.t) :
  (minimum p = Some b -> lessThanMinimum p (VNumber b) = false)
  /\ (maximum p = Some b -> greaterThanMaximum p (VNumber b) = false).
Proof.
  unfold lessThanMinimum, greaterThanMaximum. split; intros ->;
    cbn [ToNumber]; apply Num_ltb_irrefl.
Qed.

(** A value that converts to NaN (undefined, a string that is no numeric
    literal, a plain object) is neither less than any minimum nor greater
    than any maximum: both range checks let it through, whatever the bounds
    are. *)
Theorem NaN_passes_range_checks (p : t) (v : JsValue)
    (H : ToNumber v = Num.NaN) :
  lessThanMinimum p v = false /\ greaterThanMaximum p v = false.
Proof.
  unfold lessThanMinimum, greaterThanMaximum. rewrite H.
  destruct (minimum p) as [lo|], (maximum p) as [hi|]; split;
    try reflexivity.
  all: unfold Num.ltb, SFltb, SFcompare, Num.NaN.
  all: try (destruct hi as [[]|[]| |[] ? ?]; reflexivity).
Qed.

(** With [multipleOf] defined, a value that converts to NaN or to an
    infinity is always rejected by the multiple-of check: the difference
    between the quotient and its rounding is then NaN, which is [!== 0]. *)
Theorem non_finite_is_never_a_multiple (p : t) (v : JsValue) (k : Num.t)
    (Hk : multipleOf p = Some k)
    (H : ToNumber v = Num.NaN \/ exists s, ToNumber v = S754_infinity s) :
  notMultiple p v = true.
Proof.
  unfold notMultiple. rewrite Hk. destruct H as [-> | [s ->]].
  - reflexivity.
  - destruct k as [[]|[]| |[] m e], s; reflexivity.
Qed.

(** A [multipleOf] that is zero or NaN makes the check reject every value:
    the quotient is then an infinity or NaN. *)
Theorem degenerate_multipleOf_rejects_all (p : t) (v : JsValue) (k : Num.t)
    (Hk : multipleOf p = Some k)
    (H : k = S754_nan \/ exists s, k = S754_zero s) :
  notMultiple p v = true.
Proof.
  unfold notMultiple. rewrite Hk. destruct H as [-> | [s ->]].
  - destruct (ToNumber v) as [[]|[]| |[] m e]; reflexivity.
  - destruct (ToNumber v) as [[]|[]| |[] m e], s; reflexivity.
Qed.

(** Zero, of either sign, passes the multiple-of check for every
    [multipleOf] but zero and NaN. *)
Theorem zero_is_a_multiple (p : t) (v : JsValue) (k : Num.t) (s : bool)
    (Hk : multipleOf p = Some k) (H : ToNumber v = S754_zero s) :
  notMultiple p v =
    match k with
    | S754_zero _ | S754_nan => true
    | _ => false
    end.
Proof.
  unfold notMultiple. rewrite Hk, H.
  destruct k as [[]|[]| |[] m e], s; reflexivity.
Qed.

End Guards.

(** A property with a minimum and no maximum, and [percent] for the
    maximum. *)
Lemma bounds_are_inclusive_witness :
  Property.minimum (Property.setMinimum Examples.level (Num.of_Z 0))
    = Some (Num.of_Z 0)
  /\ Property.maximum (Property.setMinimum Examples.level (Num.of_Z 0)) = None
  /\ Property.maximum Examples.percent = Some (Num.of_Z 100)
  /\ Property.lessThanMinimum (Property.setMinimum Examples.level (Num.of_Z 0))
       (VNumber (Num.of_Z 0)) = false
  /\ Property.greaterThanMaximum Examples.percent (VNumber (Num.of_Z 100))
     = false.
Proof.
  split; [reflexivity|].
  split; [reflexivity|].
  split; [reflexivity|].
  split.
  - exact (proj1 (bounds_are_inclusive
                    (Property.setMinimum Examples.level (Num.of_Z 0))
                    (Num.of_Z 0)) eq_refl).
  - exact (proj2 (bounds_are_inclusive Examples.percent (Num.of_Z 100))
             eq_refl).
Defined.

Lemma NaN_passes_range_checks_witness :
  ToNumber (VString "dim") = Num.NaN
  /\ Property.lessThanMinimum Examples.percent (VString "dim") = false
  /\ Property.greaterThanMaximum Examples.percent (VString "dim") = false.
Proof.
  split; [reflexivity|].
  exact (NaN_passes_range_checks Examples.percent (VString "dim") eq_refl).
Defined.

Lemma non_finite_is_never_a_multiple_witness :
  (Property.multipleOf Examples.percent = Some (Num.of_Z 5)
   /\ (ToNumber VUndefined = Num.NaN
       \/ exists s, ToNumber VUndefined = S754_infinity s))
  /\ Property.notMultiple Examples.percent VUndefined = true.
Proof.
  split; [split; [reflexivity|left; reflexivity]|].
  exact (non_finite_is_never_a_multiple Examples.percent VUndefined _
           eq_refl (or_introl eq_refl)).
Defined.

Lemma degenerate_multipleOf_rejects_all_witness :
  (Property.multipleOf (Property.setMultipleOf Examples.level Num.zero)
     = Some Num.zero
   /\ (Num.zero = S754_nan \/ exists s, Num.zero = S754_zero s))
  /\ Property.notMultiple (Property.setMultipleOf Examples.level Num.zero)
       Examples.five = true.
Proof.
  split; [split; [reflexivity|right; now exists false]|].
  exact (degenerate_multipleOf_rejects_all
           (Property.setMultipleOf Examples.level Num.zero) Examples.five _
           eq_refl (or_intror (ex_intro _ false eq_refl))).
Defined.

Lemma zero_is_a_multiple_witness :
  (Property.multipleOf Examples.tenths = Some (Num.decimal 1 (-1))
   /\ ToNumber (VNumber Num.zero) = S754_zero false)
  /\ Property.notMultiple Examples.tenths (VNumber Num.zero) = false.
Proof.
  split; [split; reflexivity|].
  exact (zero_is_a_multiple Examples.tenths (VNumber Num.zero) _ false
           eq_refl eq_refl).
Defined.

(** ** Writes, reads and what the device is told *)

Lemma strict_eq_true (a b : JsValue) :
  strict_eq a b = true ->
  (exists s s', a = VNumber (S754_zero s) /\ b = VNumber (S754_zero s'))
  \/ (a = b /\ a <> VNumber S754_nan).
Proof.
  destruct a as [| |x|x|x|x], b as [| |y|y|y|y]; cbn [strict_eq];
    try discriminate.
  - intros _. right. split; [reflexivity|discriminate].
  - intros _. right. split; [reflexivity|discriminate].
  - intros Q. apply Bool.eqb_prop in Q. subst. right.
    split; [reflexivity|discriminate].
  - intros Q. destruct (Num_eqb_true _ _ Q) as [(s & s' & -> & ->) | [-> N]].
    + left. now exists s, s'.
    + right. split; [reflexivity|]. intros [= ->]. now elim N.
  - intros Q. apply String.eqb_eq in Q. subst. right.
    split; [reflexivity|discriminate].
  - intros Q. apply Nat.eqb_eq in Q. subst. right.
    split; [reflexivity|discriminate].
Qed.

Lemma strict_eq_refl (a : JsValue) :
  a <> VNumber S754_nan -> strict_eq a a = true.
Proof.
  destruct a as [| |x|x|x|x]; cbn [strict_eq]; intros N; try reflexivity.
  - now destruct x.
  - apply Num_eqb_refl. intros ->. now elim N.
  - apply String.eqb_refl.
  - apply Nat.eqb_refl.
Qed.

Lemma strict_eq_sym (a b : JsValue) :
  strict_eq a b = true -> strict_eq b a = true.
Proof.
  intros Q. destruct (strict_eq_true _ _ Q) as [(s & s' & -> & ->) | [<- N]].
  - reflexivity.
  - now apply strict_eq_refl.
Qed.

Lemma strict_eq_trans (a b c : JsValue) :
  strict_eq a b = true -> strict_eq b c = true -> strict_eq a c = true.
Proof.
  intros Q1 Q2.
  destruct (strict_eq_true _ _ Q1) as [(s & s' & -> & ->) | [<- _]];
    [|exact Q2].
  destruct (strict_eq_true _ _ Q2) as [(t & t' & _ & ->) | [<- _]];
    reflexivity.
Qed.

Section Cache.

Context {E : JsEngine}.

Import Property.

(** A fresh property holds no value: a read resolves with [undefined] and
    leaves the property as the constructor made it, a description that says
    nothing about [visible] gives a visible property, and the property is
    not fire-and-forget. *)
Theorem fresh_property_reads_undefined
    (n : string) (d : PropertyDescription.t)
    (l : LegacyPropertyDescription.t) :
  getValue (new n d l) = (Resolved VUndefined, new n d l)
  /\ get (asDict (new n d l)) "value" = Some (FVal VUndefined)
  /\ isFireAndForget (new n d l) = false
  /\ isVisible (new n d l)
     = match PropertyDescription.visible d with
       | Some b => b
       | None => true
       end.
Proof. repeat split. Qed.

(** The legacy fields stand in for the canonical ones only where those are
    absent: a description that has a [minimum] is bound by it whatever its
    legacy [min] says, and one that has only [min] is bound by [min]; a
    fresh property that is not read-only rejects a value below that bound
    with the bound in the reason. *)
Theorem legacy_minimum_is_enforced
    (n : string) (d : PropertyDescription.t)
    (l : LegacyPropertyDescription.t) (dev : Device) (v : JsValue)
    (m : Num.t)
    (Hro : PropertyDescription.readOnly d <> Some true)
    (Hm : nullish (PropertyDescription.minimum d)
            (LegacyPropertyDescription.min l) = Some m)
    (Hv : Num.ltb (ToNumber v) m = true) :
  minimum (new n d l) = Some m
  /\ (forall m', PropertyDescription.minimum d = Some m' -> m = m')
  /\ setValue {| this := new n d l; device := dev |} v
     = (Rejected ("Value less than minimum: " ++ NumberToString m),
        {| this := new n d l; device := dev |}).
Proof.
  split; [exact Hm|]. split.
  - intros m' Q. rewrite Q in Hm. cbn in Hm. congruence.
  - unfold setValue. cbn [this].
    assert (R : isReadOnly (new n d l) = false).
    { unfold isReadOnly. cbn [new readOnly].
      destruct (PropertyDescription.readOnly d) as [[]|]; try reflexivity.
      now elim Hro. }
    rewrite R. unfold lessThanMinimum.
    change (minimum (new n d l))
      with (nullish (PropertyDescription.minimum d)
              (LegacyPropertyDescription.min l)).
    rewrite Hm, Hv. reflexivity.
Qed.


(** A second read changes nothing: after one [getValue] another one
    resolves with the same value and leaves the property as it is. *)
Theorem getValue_twice (p : t) :
  getValue (snd (getValue p)) = (fst (getValue p), snd (getValue p)).
Proof.
  unfold getValue. cbn [fst snd].
  destruct (loose_neq (value p) (prevGetValue p)) eqn:Q.
  - cbn [value prevGetValue set_prevGetValue].
    destruct (loose_neq (value p) (value p)); reflexivity.
  - rewrite Q. reflexivity.
Qed.

(** [setCachedValueAndNotify] does not look at the constraints: on a
    read-only property, where [setValue] rejects every value, it still
    stores the coerced value, returns whether that changed the cache and
    notifies the device exactly then. *)
Theorem setCachedValueAndNotify_ignores_readOnly (st : State) (v : JsValue)
    (H : readOnly (this st) = Some true) :
  fst (setValue st v) = Rejected "Read-only property"
  /\ value (this (snd (setCachedValueAndNotify st v)))
     = (if String.eqb (type (this st)) "boolean"
        then VBool (ToBoolean v) else v)
  /\ fst (setCachedValueAndNotify st v)
     = strict_neq (value (this st))
         (value (this (snd (setCachedValueAndNotify st v))))
  /\ notifyPropertyChanged_calls (device (snd (setCachedValueAndNotify st v)))
     = (notifyPropertyChanged_calls (device st)
          ++ (if fst (setCachedValueAndNotify st v)
              then [this (snd (setCachedValueAndNotify st v))]
              else []))%list.
Proof.
  split.
  - unfold setValue, isReadOnly. now rewrite H.
  - rewrite (setCachedValueAndNotify_state st v). cbv zeta.
    cbn [fst snd this device notifyPropertyChanged_calls].
    rewrite setCachedValue_value. now repeat split.
Qed.

(** Writing the same value again is silent: right after
    [setCachedValueAndNotify(v)], a second [setCachedValueAndNotify(v)]
    returns [false], notifies nobody and leaves the state as it is,
    provided the value in the cache is [===] to itself, that is, is not
    NaN. *)
Theorem same_value_again_is_silent (st : State) (v : JsValue)
    (H : value (this (snd (setCachedValueAndNotify st v)))
         <> VNumber S754_nan) :
  setCachedValueAndNotify (snd (setCachedValueAndNotify st v)) v
  = (false, snd (setCachedValueAndNotify st v)).
Proof.
  rewrite (setCachedValueAndNotify_state st v) in *. cbv zeta in *.
  cbn [snd this value] in *.
  set (p1 := snd (setCachedValue (this st) v)) in *.
  rewrite setCachedValueAndNotify_state. cbv zeta. cbn [this device].
  assert (P : snd (setCachedValue p1 v) = p1).
  { clear. unfold p1, setCachedValue. cbn [snd].
    destruct (String.eqb (type (this st)) "boolean") eqn:B;
      cbn [type set_value]; rewrite B; reflexivity. }
  rewrite P. unfold strict_neq. rewrite (strict_eq_refl _ H). cbn [negb].
  now rewrite app_nil_r.
Qed.

(** NaN is never [===] to anything: on a property whose type is not
    ['boolean'], [setCachedValueAndNotify(NaN)] reports a change and
    notifies the device every time, also when NaN is already cached. *)
Theorem NaN_always_notifies (st : State)
    (H : String.eqb (type (this st)) "boolean" = false) :
  fst (setCachedValueAndNotify st (VNumber Num.NaN)) = true
  /\ List.length
       (notifyPropertyChanged_calls
          (device (snd (setCachedValueAndNotify st (VNumber Num.NaN)))))
     = S (List.length (notifyPropertyChanged_calls (device st))).
Proof.
  rewrite (setCachedValueAndNotify_state st _). cbv zeta.
  cbn [fst snd device notifyPropertyChanged_calls].
  rewrite setCachedValue_value, H.
  assert (N : strict_neq (value (this st)) (VNumber Num.NaN) = true).
  { unfold strict_neq. destruct (value (this st)) as [| |x|x|x|x];
      try reflexivity.
    cbn [strict_eq]. unfold Num.eqb, SFeqb, SFcompare, Num.NaN.
    now destruct x as [[]|[]| |[] ? ?]. }
  rewrite N. split; [reflexivity|].
  rewrite length_app. cbn [List.length]. lia.
Qed.

End Cache.

(** A description from an older add-on, [{type: 'number', min: 0}], and the
    value -5. *)
Lemma legacy_minimum_is_enforced_witness :
  (PropertyDescription.readOnly (Examples.descr "number") <> Some true
   /\ nullish (PropertyDescription.minimum (Examples.descr "number"))
        (LegacyPropertyDescription.min
           (LegacyPropertyDescription.mk (Some (Num.of_Z 0)) None None))
      = Some (Num.of_Z 0)
   /\ Num.ltb (ToNumber (VNumber (Num.of_Z (-5)))) (Num.of_Z 0) = true)
  /\ fst (Property.setValue
            {| Property.this :=
                 Property.new "level" (Examples.descr "number")
                   (LegacyPropertyDescription.mk (Some (Num.of_Z 0)) None
                      None);
               Property.device := Examples.idle |}
            (VNumber (Num.of_Z (-5))))
     = Rejected "Value less than minimum: 0".
Proof.
  split; [split; [discriminate|split; reflexivity]|].
  exact (f_equal fst
           (proj2 (proj2
              (legacy_minimum_is_enforced "level" (Examples.descr "number")
                 (LegacyPropertyDescription.mk (Some (Num.of_Z 0)) None None)
                 Examples.idle (VNumber (Num.of_Z (-5))) (Num.of_Z 0)
                 ltac:(discriminate) eq_refl eq_refl)))).
Defined.


Lemma setCachedValueAndNotify_ignores_readOnly_witness :
  Property.readOnly (Property.this (Examples.state Examples.sensor))
    = Some true
  /\ fst (Property.setValue (Examples.state Examples.sensor) Examples.five)
     = Rejected "Read-only property"
  /\ Property.value
       (Property.this
          (snd (Property.setCachedValueAndNotify
                  (Examples.state Examples.sensor) Examples.five)))
     = Examples.five.
Proof.
  split; [reflexivity|].
  split.
  - exact (proj1 (setCachedValueAndNotify_ignores_readOnly
                    (Examples.state Examples.sensor) Examples.five eq_refl)).
  - exact (proj1 (proj2 (setCachedValueAndNotify_ignores_readOnly
                           (Examples.state Examples.sensor) Examples.five
                           eq_refl))).
Defined.

Lemma same_value_again_is_silent_witness :
  Property.value
    (Property.this
       (snd (Property.setCachedValueAndNotify (Examples.state Examples.on)
               Examples.one)))
    <> VNumber S754_nan
  /\ Property.setCachedValueAndNotify
       (snd (Property.setCachedValueAndNotify (Examples.state Examples.on)
               Examples.one))
       Examples.one
     = (false, Examples.notified Examples.on_true).
Proof.
  split; [discriminate|].
  exact (same_value_again_is_silent (Examples.state Examples.on) Examples.one
           ltac:(discriminate)).
Defined.

Lemma NaN_always_notifies_witness :
  String.eqb (Property.type (Property.this (Examples.state Examples.level_nan)))
    "boolean" = false
  /\ fst (Property.setCachedValueAndNotify (Examples.state Examples.level_nan)
            (VNumber Num.NaN)) = true.
Proof.
  split; [reflexivity|].
  exact (proj1 (NaN_always_notifies (Examples.state Examples.level_nan)
                  eq_refl)).
Defined.

(** ** Sequences of calls on a property *)

Lemma metadata_description (p q : Property.t) :
  PropertyCalls.metadata p = PropertyCalls.metadata q ->
  Property.asPropertyDescription p = Property.asPropertyDescription q.
Proof.
  destruct p, q. unfold PropertyCalls.metadata. cbn.
  intros Q. injection Q as -> -> -> -> -> -> -> -> -> -> -> -> -> ->.
  reflexivity.
Qed.

Lemma last_value_app (l : list Property.t) (p : Property.t) :
  PropertyCalls.last_value (l ++ [p]) = Some (Property.value p).
Proof.
  induction l as [|a l IH]; [reflexivity|].
  cbn [app PropertyCalls.last_value].
  destruct l as [|b l]; [reflexivity|exact IH].
Qed.

Lemma no_repeat_app (l : list Property.t) (p : Property.t) :
  PropertyCalls.no_repeat (l ++ [p]) =
    PropertyCalls.no_repeat l
    && match PropertyCalls.last_value l with
       | None => true
       | Some x => strict_neq x (Property.value p)
       end.
Proof.
  induction l as [|a l IH]; [reflexivity|].
  destruct l as [|b l].
  - cbn. now rewrite andb_true_r.
  - change (PropertyCalls.no_repeat ((a :: b :: l) ++ [p]))
      with (strict_neq (Property.value a) (Property.value b)
            && PropertyCalls.no_repeat ((b :: l) ++ [p])).
    rewrite IH. cbn [PropertyCalls.no_repeat PropertyCalls.last_value].
    now rewrite andb_assoc.
Qed.

Section PropertySequences.

Context {E : JsEngine}.

Import Property.

Lemma setCachedValue_metadata (p : t) (v : JsValue) :
  PropertyCalls.metadata (snd (setCachedValue p v))
  = PropertyCalls.metadata p.
Proof.
  unfold setCachedValue. cbn [snd].
  now destruct (String.eqb (type p) "boolean").
Qed.

(** What one call does to the state: the property it leaves, and what it
    adds to the calls the device has received. *)
Lemma call_cases (st : State) (c : PropertyCalls.Call) :
  PropertyCalls.call st c = st
  \/ (c = PropertyCalls.GetValue
      /\ PropertyCalls.call st c
         = {| this := snd (getValue (this st)); device := device st |})
  \/ (exists v, c = PropertyCalls.SetCachedValue v
      /\ PropertyCalls.call st c
         = {| this := snd (setCachedValue (this st) v);
              device := device st |})
  \/ (exists v, PropertyCalls.may_notify c = true
      /\ PropertyCalls.call st c = snd (setCachedValueAndNotify st v)).
Proof.
  destruct c as [v|v|v|]; cbn [PropertyCalls.call].
  - destruct (setValue_cases st v) as [(c & _ & R) | (_ & R)]; rewrite R.
    + now left.
    + right. right. right. now exists v.
  - right. right. left. now exists v.
  - right. right. right. now exists v.
  - right. left. now split.
Qed.

Lemma call_metadata (st : State) (c : PropertyCalls.Call) :
  PropertyCalls.metadata (this (PropertyCalls.call st c))
  = PropertyCalls.metadata (this st).
Proof.
  destruct (call_cases st c)
    as [-> | [[_ ->] | [(v & _ & ->) | (v & _ & ->)]]]; cbn [this].
  - reflexivity.
  - unfold getValue. cbn [snd].
    now destruct (loose_neq (value (this st)) (prevGetValue (this st))).
  - apply setCachedValue_metadata.
  - rewrite (setCachedValueAndNotify_state st v). cbv zeta. cbn [snd this].
    apply setCachedValue_metadata.
Qed.

(** No sequence of reads and writes of the value changes the description:
    after any calls of [setValue], [setCachedValue],
    [setCachedValueAndNotify] and [getValue] the property differs from what
    it was in [value] and [prevGetValue] at most, and
    [asPropertyDescription] returns what it returned before. *)
Theorem value_calls_keep_the_description
    (st : State) (cs : list PropertyCalls.Call) :
  PropertyCalls.metadata (this (PropertyCalls.calls st cs))
  = PropertyCalls.metadata (this st)
  /\ asPropertyDescription (this (PropertyCalls.calls st cs))
     = asPropertyDescription (this st)
  /\ isVisible (this (PropertyCalls.calls st cs)) = isVisible (this st).
Proof.
  assert (M : PropertyCalls.metadata (this (PropertyCalls.calls st cs))
              = PropertyCalls.metadata (this st)).
  { revert st. induction cs as [|c cs IH]; intros st; [reflexivity|].
    unfold PropertyCalls.calls in *. cbn [fold_left].
    rewrite IH. apply call_metadata. }
  split; [exact M|]. split; [now apply metadata_description|].
  change (visible (PropertyCalls.metadata (this (PropertyCalls.calls st cs)))
          = visible (PropertyCalls.metadata (this st))).
  now rewrite M.
Qed.

(** The calls the device has received only grow, by at most one for each
    [setValue] and [setCachedValueAndNotify] of the sequence; [getValue] and
    [setCachedValue] never notify. *)
Theorem notifications_are_bounded_by_writes
    (st : State) (cs : list PropertyCalls.Call) :
  exists l,
    notifyPropertyChanged_calls (device (PropertyCalls.calls st cs))
    = (notifyPropertyChanged_calls (device st) ++ l)%list
    /\ (List.length l
        <= List.length (filter PropertyCalls.may_notify cs))%nat.
Proof.
  revert st. induction cs as [|c cs IH]; intros st.
  - exists []. split; [now rewrite app_nil_r|cbn; lia].
  - unfold PropertyCalls.calls in *. cbn [fold_left].
    destruct (IH (PropertyCalls.call st c)) as (l & Q & L). rewrite Q.
    destruct (call_cases st c)
      as [-> | [[-> ->] | [(v & -> & ->) | (v & N & ->)]]];
      cbn [device filter PropertyCalls.may_notify].
    + exists l. split; [reflexivity|].
      destruct (PropertyCalls.may_notify c); cbn [List.length]; lia.
    + exists l. now split.
    + exists l. now split.
    + rewrite N, (setCachedValueAndNotify_state st v). cbv zeta.
      cbn [snd device notifyPropertyChanged_calls List.length].
      destruct (strict_neq _ _).
      * eexists. rewrite <- app_assoc. split; [reflexivity|].
        cbn [app List.length]. lia.
      * exists l. rewrite app_nil_r. split; [reflexivity|lia].
Qed.

(** A read-only property is never changed through [setValue]: after any
    number of [setValue] calls, with any values, the state is what it was,
    cache and device included. *)
Theorem readOnly_survives_every_setValue
    (st : State) (vs : list JsValue)
    (H : readOnly (this st) = Some true) :
  PropertyCalls.calls st (map PropertyCalls.SetValue vs) = st
  /\ Forall (fun v => fst (setValue st v) = Rejected "Read-only property")
       vs.
Proof.
  assert (R : forall v, setValue st v = (Rejected "Read-only property", st)).
  { intros v. unfold setValue, isReadOnly. now rewrite H. }
  split.
  - induction vs as [|v vs IH]; [reflexivity|].
    unfold PropertyCalls.calls in *.
    cbn [map fold_left PropertyCalls.call]. rewrite R. exact IH.
  - apply Forall_forall. intros v _. now rewrite R.
Qed.

(** On a property of type ['boolean'] that starts with an undefined or
    boolean cache, the cache is undefined or a strict boolean after any
    sequence of calls, the type is still ['boolean'], and every property the
    device is notified with holds a strict boolean. *)
Theorem boolean_property_stays_boolean
    (st : State) (cs : list PropertyCalls.Call)
    (Ht : type (this st) = "boolean")
    (Hv : PropertyCalls.is_boolean_or_undefined (value (this st)) = true)
    (Hl : forallb (fun q => PropertyCalls.is_boolean (value q))
            (notifyPropertyChanged_calls (device st)) = true) :
  type (this (PropertyCalls.calls st cs)) = "boolean"
  /\ PropertyCalls.is_boolean_or_undefined
       (value (this (PropertyCalls.calls st cs))) = true
  /\ forallb (fun q => PropertyCalls.is_boolean (value q))
       (notifyPropertyChanged_calls (device (PropertyCalls.calls st cs)))
     = true.
Proof.
  revert st Ht Hv Hl. induction cs as [|c cs IH]; intros st Ht Hv Hl.
  - now repeat split.
  - unfold PropertyCalls.calls in *. cbn [fold_left].
    assert (B : forall v, value (snd (setCachedValue (this st) v))
                          = VBool (ToBoolean v)).
    { intros v. now rewrite setCachedValue_value, Ht. }
    assert (T : forall v, type (snd (setCachedValue (this st) v))
                          = "boolean").
    { intros v. unfold setCachedValue. cbn [snd]. rewrite Ht.
      cbn [String.eqb Ascii.eqb Bool.eqb]. exact Ht. }
    destruct (call_cases st c)
      as [-> | [[_ ->] | [(v & _ & ->) | (v & _ & ->)]]].
    + now apply IH.
    + apply IH; cbn [this device]; try assumption.
      * unfold getValue. cbn [snd].
        now destruct (loose_neq (value (this st)) (prevGetValue (this st))).
      * unfold getValue. cbn [snd].
        now destruct (loose_neq (value (this st)) (prevGetValue (this st))).
    + apply IH; cbn [this device]; try assumption; [apply T|].
      now rewrite B.
    + rewrite (setCachedValueAndNotify_state st v). cbv zeta. cbn [snd].
      apply IH; cbn [this device notifyPropertyChanged_calls];
        [apply T|now rewrite B|].
      rewrite forallb_app, Hl.
      destruct (strict_neq _ _); [|reflexivity].
      cbn [forallb]. now rewrite B.
Qed.

(** Where every write goes through [setValue] or [setCachedValueAndNotify]
    the device stays in step with the cache: after any sequence of such
    writes and of reads, the cached value is the value the device was told
    last (or is [===] to it), and no two notifications in a row carry values
    that are [===]. *)
Theorem notifications_follow_the_cache
    (st : State) (cs : list PropertyCalls.Call)
    (Hc : forallb PropertyCalls.not_silent cs = true)
    (Hs : PropertyCalls.in_sync st)
    (Hn : PropertyCalls.no_repeat (notifyPropertyChanged_calls (device st))
          = true) :
  PropertyCalls.in_sync (PropertyCalls.calls st cs)
  /\ PropertyCalls.no_repeat
       (notifyPropertyChanged_calls (device (PropertyCalls.calls st cs)))
     = true.
Proof.
  revert st Hs Hn. induction cs as [|c cs IH]; intros st Hs Hn.
  - now split.
  - cbn [forallb] in Hc. apply andb_true_iff in Hc. destruct Hc as [Hc Hcs].
    unfold PropertyCalls.calls in *. cbn [fold_left].
    destruct (call_cases st c)
      as [-> | [[_ ->] | [(v & -> & _) | (v & _ & ->)]]].
    + now apply IH.
    + apply IH; [exact Hcs| |exact Hn].
      unfold PropertyCalls.in_sync in *. cbn [this device].
      replace (value (snd (getValue (this st)))) with (value (this st));
        [exact Hs|].
      unfold getValue. cbn [snd].
      now destruct (loose_neq (value (this st)) (prevGetValue (this st))).
    + discriminate Hc.
    + rewrite (setCachedValueAndNotify_state st v). cbv zeta. cbn [snd].
      set (p' := snd (setCachedValue (this st) v)).
      unfold PropertyCalls.in_sync in Hs.
      destruct (strict_neq (value (this st)) (value p')) eqn:Q.
      * apply IH; [exact Hcs| |].
        -- unfold PropertyCalls.in_sync.
           cbn [this device notifyPropertyChanged_calls].
           rewrite last_value_app. now left.
        -- cbn [device notifyPropertyChanged_calls].
           rewrite no_repeat_app, Hn. cbn [andb].
           destruct (PropertyCalls.last_value
                       (notifyPropertyChanged_calls (device st)))
             as [x|]; [|reflexivity].
           destruct Hs as [<- | Hx]; [exact Q|].
           unfold strict_neq in *. apply negb_true_iff in Q.
           apply negb_true_iff.
           destruct (strict_eq x (value p')) eqn:X; [|reflexivity].
           rewrite (strict_eq_trans _ _ _ Hx X) in Q. discriminate Q.
      * apply IH; [exact Hcs| |].
        -- unfold PropertyCalls.in_sync.
           cbn [this device notifyPropertyChanged_calls].
           rewrite app_nil_r.
           destruct (PropertyCalls.last_value
                       (notifyPropertyChanged_calls (device st)))
             as [x|]; [|exact I].
           unfold strict_neq in Q. apply negb_false_iff in Q. right.
           destruct Hs as [<- | Hx]; [now apply strict_eq_sym|].
           exact (strict_eq_trans _ _ _ (strict_eq_sym _ _ Q) Hx).
        -- cbn [device notifyPropertyChanged_calls].
           now rewrite app_nil_r.
Qed.

End PropertySequences.

(** [sensor] and three attempts to write it. *)
Lemma readOnly_survives_every_setValue_witness :
  Property.readOnly (Property.this (Examples.state Examples.sensor))
    = Some true
  /\ PropertyCalls.calls (Examples.state Examples.sensor)
       (map PropertyCalls.SetValue
          [Examples.five; VString "dim"; VUndefined])
     = Examples.state Examples.sensor.
Proof.
  split; [reflexivity|].
  exact (proj1 (readOnly_survives_every_setValue
                  (Examples.state Examples.sensor)
                  [Examples.five; VString "dim"; VUndefined] eq_refl)).
Defined.

(** [on], written with a number, a string and an object, and read. *)
Lemma boolean_property_stays_boolean_witness :
  (Property.type (Property.this (Examples.state Examples.on)) = "boolean"
   /\ PropertyCalls.is_boolean_or_undefined
        (Property.value (Property.this (Examples.state Examples.on))) = true
   /\ forallb (fun q => PropertyCalls.is_boolean (Property.value q))
        (Property.notifyPropertyChanged_calls
           (Property.device (Examples.state Examples.on))) = true)
  /\ PropertyCalls.is_boolean_or_undefined
       (Property.value
          (Property.this
             (PropertyCalls.calls (Examples.state Examples.on)
                [PropertyCalls.SetValue Examples.one;
                 PropertyCalls.SetCachedValue (VString "");
                 PropertyCalls.GetValue;
                 PropertyCalls.SetCachedValueAndNotify (VObject 0)])))
     = true.
Proof.
  split; [repeat split|].
  exact (proj1 (proj2
           (boolean_property_stays_boolean (Examples.state Examples.on)
              [PropertyCalls.SetValue Examples.one;
               PropertyCalls.SetCachedValue (VString "");
               PropertyCalls.GetValue;
               PropertyCalls.SetCachedValueAndNotify (VObject 0)]
              eq_refl eq_refl eq_refl))).
Defined.

(** [level], written 5, 5 again, read, and written 1. *)
Lemma notifications_follow_the_cache_witness :
  (forallb PropertyCalls.not_silent
     [PropertyCalls.SetValue Examples.five;
      PropertyCalls.SetCachedValueAndNotify Examples.five;
      PropertyCalls.GetValue;
      PropertyCalls.SetValue Examples.one] = true
   /\ PropertyCalls.in_sync (Examples.state Examples.level)
   /\ PropertyCalls.no_repeat
        (Property.notifyPropertyChanged_calls
           (Property.device (Examples.state Examples.level))) = true)
  /\ PropertyCalls.no_repeat
       (Property.notifyPropertyChanged_calls
          (Property.device
             (PropertyCalls.calls (Examples.state Examples.level)
                [PropertyCalls.SetValue Examples.five;
                 PropertyCalls.SetCachedValueAndNotify Examples.five;
                 PropertyCalls.GetValue;
                 PropertyCalls.SetValue Examples.one]))) = true.
Proof.
  split; [split; [reflexivity|split; [exact I|reflexivity]]|].
  exact (proj2
           (notifications_follow_the_cache (Examples.state Examples.level)
              [PropertyCalls.SetValue Examples.five;
               PropertyCalls.SetCachedValueAndNotify Examples.five;
               PropertyCalls.GetValue;
               PropertyCalls.SetValue Examples.one]
              eq_refl I eq_refl)).
Defined.

(** The run of the last witness notifies twice, once with 5 and once
    with 1. *)
Example level_five_five_one :
  map Property.value
    (Property.notifyPropertyChanged_calls
       (Property.device
          (PropertyCalls.calls (Examples.state Examples.level)
             [PropertyCalls.SetValue Examples.five;
              PropertyCalls.SetCachedValueAndNotify Examples.five;
              PropertyCalls.GetValue;
              PropertyCalls.SetValue Examples.one])))
  = [Examples.five; Examples.one].
Proof. vm_compute. reflexivity. Qed.

(** ** The views of a property and of an action *)

(** [asDict] of a property is its description with [name], [value] and
    [visible] in front: it has fourteen keys whatever the property holds,
    and every key of [asPropertyDescription] is a key of [asDict] with the
    same value. *)
Theorem property_asDict_extends_description (p : Property.t) :
  Property.asDict p
  = ([ ("name", FVal (VString (Property.name p)));
       ("value", FVal (Property.value p));
       ("visible", FVal (VBool (Property.visible p))) ]
       ++ Property.asPropertyDescription p)%list
  /\ List.length (keys (Property.asDict p)) = 14%nat
  /\ (forall k f, get (Property.asPropertyDescription p) k = Some f ->
                  get (Property.asDict p) k = Some f).
Proof.
  split; [reflexivity|]. split; [reflexivity|].
  intros k f. unfold Property.asDict. cbn [get].
  destruct (String.eqb k "name") eqn:K1;
    [apply String.eqb_eq in K1; subst k; discriminate|].
  destruct (String.eqb k "value") eqn:K2;
    [apply String.eqb_eq in K2; subst k; discriminate|].
  destruct (String.eqb k "visible") eqn:K3;
    [apply String.eqb_eq in K3; subst k; discriminate|].
  unfold Property.asPropertyDescription. cbn [get]. trivial.
Qed.

(** [asDict] of an action always has its six keys, and it agrees with
    [asActionDescription] on every key the description has. *)
Theorem action_asDict_extends_description (a : Action.t) :
  keys (Action.asDict a)
  = ["id"; "name"; "input"; "status"; "timeRequested"; "timeCompleted"]
  /\ (forall k f, get (Action.asActionDescription a) k = Some f ->
                  get (Action.asDict a) k = Some f).
Proof.
  split; [reflexivity|].
  intros k f. unfold Action.asActionDescription, Action.asDict.
  destruct (strict_neq (Action.input a) VNull);
    destruct (strict_neq (opt_string (Action.timeCompleted a)) VNull);
    cbn [set get String.eqb Ascii.eqb Bool.eqb];
    (destruct (String.eqb k "id") eqn:K0;
       [apply String.eqb_eq in K0; subst k; discriminate|]);
    destruct (String.eqb k "name"); trivial;
    destruct (String.eqb k "timeRequested") eqn:K1;
    destruct (String.eqb k "status") eqn:K2;
    destruct (String.eqb k "input") eqn:K3;
    destruct (String.eqb k "timeCompleted") eqn:K4;
    trivial; try discriminate;
    repeat match goal with
           | Q : String.eqb k _ = true |- _ =>
               apply String.eqb_eq in Q; subst k
           end;
    discriminate.
Qed.

(** ** Sequences of calls on an action *)

Lemma find_app_single {A : Type} (f : A -> bool) (l : list A) (x : A) :
  find f (l ++ [x]) =
    match find f l with
    | Some y => Some y
    | None => if f x then Some x else None
    end.
Proof.
  induction l as [|a l IH]; cbn [app find]; [reflexivity|].
  now destruct (f a).
Qed.

Lemma last_cons {A : Type} (l : list A) (a d : A) :
  last (a :: l) d = last l a.
Proof.
  revert a d. induction l as [|b l IH]; intros a d; [reflexivity|].
  change (last (a :: b :: l) d) with (last (b :: l) d).
  now rewrite (IH b d), (IH b a).
Qed.

Section ActionSequences.

Variable format : Z -> string.

(** The clock never goes back. *)
Lemma calls_clock_monotone
    (st : Action.t * Action.Env) (cs : list ActionCalls.Call) :
  Action.clock (snd st)
  <= Action.clock (snd (ActionCalls.calls format st cs)).
Proof.
  revert st. induction cs as [|c cs IH]; intros st.
  - cbn. lia.
  - unfold ActionCalls.calls in *. cbn [fold_left].
    specialize (IH (ActionCalls.call format st c)).
    assert (C : Action.clock (snd st)
                <= Action.clock (snd (ActionCalls.call format st c))).
    { destruct c; cbn; lia. }
    lia.
Qed.

(** [start] and [finish] never touch what the action was requested with:
    after any sequence of calls its [id], [name], [input] and
    [timeRequested] are those it had, and the clock has not gone back. *)
Theorem action_request_is_kept
    (st : Action.t * Action.Env) (cs : list ActionCalls.Call) :
  Action.id (fst (ActionCalls.calls format st cs)) = Action.id (fst st)
  /\ Action.name (fst (ActionCalls.calls format st cs))
     = Action.name (fst st)
  /\ Action.input (fst (ActionCalls.calls format st cs))
     = Action.input (fst st)
  /\ Action.timeRequested (fst (ActionCalls.calls format st cs))
     = Action.timeRequested (fst st)
  /\ Action.clock (snd st)
     <= Action.clock (snd (ActionCalls.calls format st cs)).
Proof.
  split; [|split; [|split; [|split; [|apply calls_clock_monotone]]]];
    revert st; induction cs as [|c cs IH]; intros st; try reflexivity;
    unfold ActionCalls.calls in *; cbn [fold_left]; rewrite IH;
    destruct c; reflexivity.
Qed.

(** Every [start] and every [finish] notifies the device, once, whatever
    the status of the action is, and nothing else does: the device receives
    one call for each of them, and when it has received any, the last one
    carries the action as it is now. *)
Theorem every_transition_notifies
    (st : Action.t * Action.Env) (cs : list ActionCalls.Call) :
  exists l,
    Action.actionNotify_calls (snd (ActionCalls.calls format st cs))
    = (Action.actionNotify_calls (snd st) ++ l)%list
    /\ List.length l = List.length (filter ActionCalls.notifies cs)
    /\ last l (fst st) = fst (ActionCalls.calls format st cs).
Proof.
  revert st. induction cs as [|c cs IH]; intros st.
  - exists []. repeat split. now rewrite app_nil_r.
  - unfold ActionCalls.calls in *. cbn [fold_left].
    destruct (IH (ActionCalls.call format st c)) as (l & Q & L & T).
    rewrite Q, <- T.
    destruct c; cbn [ActionCalls.call filter ActionCalls.notifies].
    + exists (fst (Action.start (fst st) (snd st)) :: l).
      cbn [Action.start Action.actionNotify snd fst
           Action.actionNotify_calls].
      rewrite <- app_assoc. cbn [app List.length]. rewrite L.
      repeat split. apply last_cons.
    + exists (fst (Action.finish format (fst st) (snd st)) :: l).
      cbn [Action.finish Action.actionNotify snd fst
           Action.actionNotify_calls].
      rewrite <- app_assoc. cbn [app List.length]. rewrite L.
      repeat split. apply last_cons.
    + exists l. cbn [snd fst Action.elapse Action.actionNotify_calls].
      now repeat split.
Qed.

(** Neither transition is guarded: the status after any sequence of calls
    is decided by the last [start] or [finish] in it alone.  After a
    [start] it is ['pending'], also when the action had been finished
    before; after a [finish] it is ['completed'], also when the action was
    never started; with neither it is what it was. *)
Theorem status_follows_the_last_call
    (st : Action.t * Action.Env) (cs : list ActionCalls.Call) :
  Action.status (fst (ActionCalls.calls format st cs)) =
    match find ActionCalls.notifies (rev cs) with
    | Some ActionCalls.Start => "pending"
    | Some ActionCalls.Finish => "completed"
    | _ => Action.status (fst st)
    end.
Proof.
  revert st. induction cs as [|c cs IH]; intros st; [reflexivity|].
  unfold ActionCalls.calls in *. cbn [fold_left rev].
  rewrite IH, find_app_single.
  destruct (find ActionCalls.notifies (rev cs)) as [[| |d]|] eqn:F;
    try reflexivity.
  - apply find_some in F. destruct F as [_ F]. discriminate F.
  - destruct c; reflexivity.
Qed.

(** [timeCompleted] is written by [finish] and by nothing else.  Without a
    [finish] in the sequence it is what it was; with one, it is the
    timestamp of an instant between the one the sequence began at and the
    current one. *)
Theorem timeCompleted_is_set_by_finish
    (st : Action.t * Action.Env) (cs : list ActionCalls.Call) :
  (existsb ActionCalls.is_finish cs = false ->
   Action.timeCompleted (fst (ActionCalls.calls format st cs))
   = Action.timeCompleted (fst st))
  /\ (existsb ActionCalls.is_finish cs = true ->
      exists t,
        Action.timeCompleted (fst (ActionCalls.calls format st cs))
        = Some (format t)
        /\ Action.clock (snd st) <= t
        /\ t <= Action.clock (snd (ActionCalls.calls format st cs))).
Proof.
  revert st. induction cs as [|c cs IH]; intros st.
  - split; [reflexivity|discriminate].
  - destruct (IH (ActionCalls.call format st c)) as [IN IY].
    pose proof (calls_clock_monotone (ActionCalls.call format st c) cs)
      as M.
    unfold ActionCalls.calls in *. cbn [fold_left existsb].
    assert (C : Action.clock (snd st)
                <= Action.clock (snd (ActionCalls.call format st c))).
    { destruct c; cbn; lia. }
    destruct (existsb ActionCalls.is_finish cs) eqn:X.
    + rewrite orb_true_r. split; [discriminate|]. intros _.
      destruct (IY eq_refl) as (t & Q & L1 & L2).
      exists t. repeat split; [exact Q|lia|exact L2].
    + rewrite orb_false_r, (IN eq_refl).
      destruct c; cbn [ActionCalls.is_finish]; split;
        try discriminate; try reflexivity.
      intros _. exists (Action.clock (snd st)).
      cbn in *. repeat split; lia.
Qed.

End ActionSequences.

(** An action finished, then started again: it is ['pending'] and keeps its
    [timeCompleted]. *)
Example restarted_after_finish :
  fst (ActionCalls.calls Examples.instant
         (Action.new Examples.instant Examples.morning "1" "reboot" VNull,
          Examples.morning)
         [ActionCalls.Finish; ActionCalls.Elapse 3; ActionCalls.Start])
  = Action.mk "pending" "1000" (Some "1000") "1" "reboot" VNull.
Proof. vm_compute. reflexivity. Qed.

(** ** The setters *)

(** Each setter is an edit of one field: in [asDict] of the property it
    changes the key of that field and no other, so it leaves the cached
    value alone, also where the value breaks the new constraint, and it
    notifies nobody. *)
Theorem setters_change_one_key (p : Property.t) (s : string) (x : Num.t)
    (b : bool) (e : list string) (l : list Link) :
  Property.asDict (Property.setName p s)
    = set (Property.asDict p) "name" (FVal (VString s))
  /\ Property.asDict (Property.setTitle p s)
    = set (Property.asDict p) "title" (FVal (VString s))
  /\ Property.asDict (Property.setType p s)
    = set (Property.asDict p) "type" (FVal (VString s))
  /\ Property.asDict (Property.setAtType p s)
    = set (Property.asDict p) "@type" (FVal (VString s))
  /\ Property.asDict (Property.setUnit p s)
    = set (Property.asDict p) "unit" (FVal (VString s))
  /\ Property.asDict (Property.setDescription p s)
    = set (Property.asDict p) "description" (FVal (VString s))
  /\ Property.asDict (Property.setMinimum p x)
    = set (Property.asDict p) "minimum" (FVal (VNumber x))
  /\ Property.asDict (Property.setMaximum p x)
    = set (Property.asDict p) "maximum" (FVal (VNumber x))
  /\ Property.asDict (Property.setEnum p e)
    = set (Property.asDict p) "enum" (FStrings e)
  /\ Property.asDict (Property.setReadOnly p b)
    = set (Property.asDict p) "readOnly" (FVal (VBool b))
  /\ Property.asDict (Property.setMultipleOf p x)
    = set (Property.asDict p) "multipleOf" (FVal (VNumber x))
  /\ Property.asDict (Property.setLinks p l)
    = set (Property.asDict p) "links" (FLinks l).
Proof. repeat split. Qed.

(** The getter of a field returns what its setter stored. *)
Example getters_read_setters :
  Property.getMinimum (Property.setMinimum Examples.level (Num.of_Z 3))
    = Some (Num.of_Z 3)
  /\ Property.getEnum (Property.setEnum Examples.level ["a"]) = Some ["a"]
  /\ Property.getName (Property.setName Examples.level "power") = "power"
  /\ Property.getLinks (Property.setLinks Examples.level []) = [].
Proof. repeat split. Qed.
